(** * MoodMate backend: the quota-gated emotion analysis pipeline

    A shallow embedding of [ai/services.py], [ai/views.py],
    [users/models.py] (the quota fields of [UserProfile]) and
    [moods/models.py] (the fields of [MoodLog] written by the analysis
    view), with the properties of the pipeline proved over it.

    Modelling conventions.
    - A Python [str] is a [string]; one [ascii] stands for one character
      whose code point is below 256, so [String.length] is Python's [len]
      on such text.
    - A Python [dict] used as a constant lookup table is a [gmap] built
      with [list_to_map] from the entries in the order of the source;
      [d.get(k, v)] is [default v (d !! k)].
    - A number that Python holds as [int], [bool] or [float] and that the
      code only compares, multiplies by ten and rounds is its exact
      rational value in [Q].
    - An exception is a value of [exn]; code that can raise returns
      [exn + A] and a [try]/[except] is a [match] on that sum.
    - Calls on the outside world (the HTTP request, the log, the database
      row creation) appear as events of a trace and as fields of an
      explicit [world] argument. The database can refuse a new mood log
      row; the saves of a profile or a payment are taken to succeed.
    - Numbers are finite and instants unbounded. Where Python raises
      [OverflowError] instead (a [float] product past the doubles, a
      [datetime] past the year 9999), the properties carry the limit as
      a hypothesis, from the module [Limits]. *)

From Stdlib Require Import ZArith QArith Qround Qabs Lqa String Ascii List Lia Bool.
From stdpp Require Import gmap strings.
Import ListNotations.

#[local] Open Scope Z_scope.
#[local] Open Scope string_scope.
#[local] Open Scope list_scope.

(** ** Python strings *)

Module PyStr.

(** [c.lower()] on one character below code point 256: the ASCII capitals
    and the Latin-1 capitals [0xC0..0xDE] except the multiplication sign
    [0xD7] move up by 32, everything else is unchanged. *)
Definition lower_char (c : ascii) : ascii :=
  let n := nat_of_ascii c in
  if ((65 <=? n)%nat && (n <=? 90)%nat)
     || ((192 <=? n)%nat && (n <=? 222)%nat && negb (n =? 215)%nat)
  then ascii_of_nat (n + 32) else c.

(** [s.lower()] *)
Fixpoint lower (s : string) : string :=
  match s with
  | EmptyString => EmptyString
  | String c r => String (lower_char c) (lower r)
  end.

(** [c.isspace()] below code point 256: tab to carriage return, the four
    separators [0x1C..0x1F], space, NEL and the no-break space. *)
Definition is_space (c : ascii) : bool :=
  let n := nat_of_ascii c in
  ((9 <=? n)%nat && (n <=? 13)%nat) || ((28 <=? n)%nat && (n <=? 32)%nat)
  || (n =? 133)%nat || (n =? 160)%nat.

(** [s.lstrip()] *)
Fixpoint lstrip (s : string) : string :=
  match s with
  | EmptyString => EmptyString
  | String c r => if is_space c then lstrip r else s
  end.

(** [s.rstrip()]: a character is dropped when it is white space and
    everything after it has been dropped. *)
Fixpoint rstrip (s : string) : string :=
  match s with
  | EmptyString => EmptyString
  | String c r =>
      match rstrip r with
      | EmptyString => if is_space c then EmptyString else String c EmptyString
      | r' => String c r'
      end
  end.

(** [s.strip()] *)
Definition strip (s : string) : string := rstrip (lstrip s).

(** [len(s)] *)
Definition len (s : string) : Z := Z.of_nat (String.length s).

(** [s[:n]] for [n >= 0] *)
Definition take (n : nat) (s : string) : string := String.substring 0 n s.

(** [bool(s)]: a string is true when it is not empty. *)
Definition truthy (s : string) : bool :=
  match s with EmptyString => false | _ => true end.

(** [s.endswith(suffix)] *)
Definition endswith (s suffix : string) : bool :=
  let n := String.length s in
  let m := String.length suffix in
  (m <=? n)%nat && String.eqb (String.substring (n - m) m s) suffix.

(** [sub in s] *)
Fixpoint contains (s sub : string) : bool :=
  String.prefix sub s
  || match s with
     | EmptyString => false
     | String _ r => contains r sub
     end.

End PyStr.

(** ** Python values, exceptions and the outside world *)

(** The exception classes the pipeline can meet. Every one of them is a
    subclass of [Exception]; [RequestException] is the base class of the
    HTTP library's errors (connection failure, timeout, error status). *)
Inductive request_failure :=
| ConnectionError | Timeout | HTTPError | InvalidJSONError.

Inductive exn :=
| RequestException (why : request_failure)
| KeyError | TypeError | AttributeError | ValueError
| DatabaseError.

Set Warnings "-register-all".
(** What [response.json()] can return. [JNum] holds the exact value of a
    Python [int] or finite [float]; [JDict] is the parsed [dict]. The
    values [NaN], [Infinity] and [-Infinity], which [json.loads] also
    accepts, are not in this type: what is proved of a payload is proved
    of payloads whose numbers are finite. *)
Inductive json :=
| JNull
| JBool (b : bool)
| JNum (q : Q)
| JStr (s : string)
| JList (l : list json)
| JDict (d : gmap string json).
Set Warnings "register-all".

Module Py.

(** The value of a Python number ([bool] is a subclass of [int]). *)
Definition number (v : json) : option Q :=
  match v with
  | JNum q => Some q
  | JBool true => Some 1%Q
  | JBool false => Some 0%Q
  | _ => None
  end.

(** [v[key]] for a string [key]: only a [dict] can be indexed by a
    string, and a missing key raises [KeyError]. *)
Definition getitem (v : json) (key : string) : exn + json :=
  match v with
  | JDict d => match d !! key with Some x => inr x | None => inl KeyError end
  | _ => inl TypeError
  end.

(** [v.lower()]: only [str] has the method. *)
Definition lower (v : json) : exn + string :=
  match v with
  | JStr s => inr (PyStr.lower s)
  | _ => inl AttributeError
  end.

(** Rounding to the nearest integer, a tie going to the even one. *)
Definition round_half_even (q : Q) : Z :=
  let f := Qfloor q in
  match (q - inject_Z f ?= 1 # 2)%Q with
  | Lt => f
  | Gt => f + 1
  | Eq => if Z.even f then f else f + 1
  end.

(** [round(x, 3)] on the exact value of [x]. *)
Definition round3 (q : Q) : Q := Qred (round_half_even (q * 1000) # 1000).

(** [round(v, 3)]: numbers only. *)
Definition round_ndigits3 (v : json) : exn + Q :=
  match number v with
  | Some q => inr (round3 q)
  | None => inl TypeError
  end.

(** [int(x)]: truncation toward zero. *)
Definition int (q : Q) : Z := Z.quot (Qnum q) (Z.pos (Qden q)).

End Py.

(** The request sent by [requests.post(url, headers=, json=, timeout=10)]. *)
Record http_request := {
  req_url : string;
  req_authorization : string;
  req_content_type : string;
  req_inputs : string;
  req_timeout : Z
}.

(** The response object, as far as the client uses it: what
    [raise_for_status()] does and what [json()] gives. *)
Record http_response := {
  raise_for_status : option exn;
  response_json : exn + json
}.

(** A calendar date, compared as Python compares [datetime.date]:
    by year, then month, then day. *)
Record date := { year : Z; month : Z; day : Z }.

Definition date_ltb (a b : date) : bool :=
  ((year a <? year b)
   || ((year a =? year b)
       && ((month a <? month b)
           || ((month a =? month b) && (day a <? day b)))))%Z.

(** ** users/models.py: the columns of [UserProfile] the quota reads *)

Record UserProfile := {
  plan : string;
  premium_expires_at : option Z;
  daily_ai_calls : Z;
  last_ai_calls_reset : option date
}.

(** ** moods/models.py: the columns of [MoodLog] the analysis view fills *)

Record MoodLog := {
  id : Z;
  mood : string;
  intensity : Z;
  note : string;
  detected_emotion : string;
  detected_confidence : Q;
  advice : string
}.

(** ** moodmate_backend/settings.py: the three settings the pipeline reads *)

Record settings := {
  HUGGINGFACE_API_TOKEN : option string;
  FREE_DAILY_AI_CALLS : Z;
  PREMIUM_DAILY_AI_CALLS : Z
}.

(** Everything the pipeline asks of its surroundings during one request. *)
Record world := {
  (** [date.today()] *)
  today : date;
  (** [timezone.now()], as a count of microseconds *)
  now : Z;
  (** the answer of the classification service to [requests.post] *)
  requests_post : http_request -> exn + http_response;
  (** the primary key [uuid.uuid4()] gives the next [MoodLog] *)
  uuid4 : Z;
  (** whether the database refuses the row *)
  insert_error : MoodLog -> option exn;
  (** Python's [a > b] for two values neither of which is a number *)
  gt_other : json -> json -> exn + bool
}.

(** What one request does that can be seen from outside. *)
Inductive event :=
| Post (r : http_request)
| LogWarning (msg : string)
| LogError (msg : string) (e : exn)
| Save (update_fields : list string).

(** The user's row, the mood log table and the events so far. *)
Record store := {
  profile : UserProfile;
  mood_logs : list MoodLog;
  trace : list event
}.

(** ** A state and exception monad for the views and the client *)

Definition M (A : Type) : Type := store -> (exn + A) * store.

Definition ret {A} (a : A) : M A := fun s => (inr a, s).

Definition bind {A B} (m : M A) (k : A -> M B) : M B :=
  fun s => match m s with
           | (inr a, s') => k a s'
           | (inl e, s') => (inl e, s')
           end.

Definition raise {A} (e : exn) : M A := fun s => (inl e, s).

(** [try: m except Exception as e: h e] *)
Definition try_except {A} (m : M A) (h : exn -> M A) : M A :=
  fun s => match m s with
           | (inr a, s') => (inr a, s')
           | (inl e, s') => h e s'
           end.

Definition lift {A} (r : exn + A) : M A :=
  match r with inr a => ret a | inl e => raise e end.

Definition emit (ev : event) : M unit :=
  fun s => (inr tt, {| profile := profile s; mood_logs := mood_logs s;
                       trace := trace s ++ [ev] |}).

Definition get_profile : M UserProfile := fun s => (inr (profile s), s).

Definition set_profile (p : UserProfile) : M unit :=
  fun s => (inr tt, {| profile := p; mood_logs := mood_logs s; trace := trace s |}).

Definition add_mood_log (m : MoodLog) : M unit :=
  fun s => (inr tt, {| profile := profile s; mood_logs := mood_logs s ++ [m];
                       trace := trace s |}).

Declare Scope py_scope.
Delimit Scope py_scope with py.
Notation "'let*' x ':=' m 'in' k" := (bind m (fun x => k))
  (at level 10, x name, m at level 100, k at level 200) : py_scope.
Notation "m ';;' k" := (bind m (fun _ => k))
  (at level 100, k at level 200, right associativity) : py_scope.

(** Sequencing for code that can raise but touches no state. *)
Definition and_then {A B} (r : exn + A) (k : A -> exn + B) : exn + B :=
  match r with inr a => k a | inl e => inl e end.

Notation "'let?' x ':=' r 'in' k" := (and_then r (fun x => k))
  (at level 10, x name, r at level 100, k at level 200) : py_scope.
#[local] Open Scope py_scope.

(** ** Python's comparison and [max] *)

(** [a > b] on values that came out of JSON: numbers compare by value, a
    number against anything else raises [TypeError], and two values that
    are not numbers compare as the world says. *)
Definition py_gt (w : world) (a b : json) : exn + bool :=
  match Py.number a, Py.number b with
  | Some x, Some y => inr (match (x ?= y)%Q with Gt => true | _ => false end)
  | None, None => gt_other w a b
  | _, _ => inl TypeError
  end.

(** The loop of [max(items, key=key)] once a first item is held: a later
    item replaces the held one only when its key is greater. *)
Fixpoint max_loop (w : world) (key : json -> exn + json)
    (items : list json) (maxitem maxval : json) : exn + json :=
  match items with
  | [] => inr maxitem
  | item :: rest =>
      let? val := key item in
      let? greater := py_gt w val maxval in
      if greater : bool then max_loop w key rest item val
      else max_loop w key rest maxitem maxval
  end.

(** [max(items, key=key)]; an empty sequence raises [ValueError]. *)
Definition py_max (w : world) (key : json -> exn + json)
    (items : list json) : exn + json :=
  match items with
  | [] => inl ValueError
  | item :: rest => let? val := key item in max_loop w key rest item val
  end.

(** ** ai/services.py: [HFClient], the classifier gateway and the advice
    generator *)

Module HFClient.

(** [self.advice_templates], in the order of the source. *)
Definition advice_templates_items : list (string * string) :=
  [ ("joy", "You're feeling great! Consider sharing this positive energy with others or engaging in activities you love.");
    ("sadness", "It's okay to feel sad sometimes. Try gentle activities like listening to music, taking a walk, or talking to someone you trust.");
    ("anger", "Take a moment to breathe deeply. Consider what's causing this feeling and whether there's a constructive way to address it.");
    ("fear", "Fear is natural. Break down what's worrying you into smaller, manageable steps. You're stronger than you think.");
    ("surprise", "Unexpected moments can be opportunities for growth. Take time to process what happened and how you feel about it.");
    ("disgust", "Strong negative feelings can be signals. Consider what boundaries you might need to set or changes you want to make.");
    ("anxious", "Try the 4-7-8 breathing technique: breathe in for 4, hold for 7, exhale for 8. Grounding exercises can also help.");
    ("stressed", "Take a 5-minute break. Try progressive muscle relaxation or a short walk. Remember that stress is temporary.");
    ("calm", "You're in a peaceful state. This is a great time for reflection, planning, or enjoying the present moment.");
    ("excited", "Channel this positive energy into something meaningful. Consider activities that align with your goals and values.");
    ("tired", "Rest is important for your wellbeing. Consider what your body and mind need - sleep, nutrition, or a mental break.");
    ("content", "Contentment is a beautiful state. Take a moment to appreciate what's going well in your life right now.") ].

Definition advice_templates : gmap string string :=
  list_to_map advice_templates_items.

(** [emotion_mapping] of [generate_advice], in the order of the source. *)
Definition emotion_mapping_items : list (string * string) :=
  [ ("admiration", "joy"); ("amusement", "joy"); ("approval", "content");
    ("caring", "joy"); ("curiosity", "excited"); ("desire", "excited");
    ("disappointment", "sadness"); ("disapproval", "anger");
    ("embarrassment", "anxious"); ("excitement", "excited");
    ("gratitude", "content"); ("grief", "sadness"); ("love", "joy");
    ("nervousness", "anxious"); ("optimism", "joy"); ("pride", "content");
    ("realization", "surprise"); ("relief", "calm"); ("remorse", "sadness");
    ("confusion", "anxious") ].

Definition emotion_mapping : gmap string string :=
  list_to_map emotion_mapping_items.

(** The default of [self.advice_templates.get(advice_key, ...)]. *)
Definition generic_advice : string :=
  "Take a moment to acknowledge your feelings. Remember that all emotions are valid and temporary.".

Definition disclaimer : string :=
  " Remember, this is general wellness advice and not a substitute for professional mental health support.".

(** The [dict] that [analyze_emotion] returns; a result without the key
    ['ai_unavailable'] has the field [false], which is how the view reads
    it ([emotion_result.get('ai_unavailable', False)]). *)
Record EmotionResult := {
  label : string;
  score : Q;
  ai_unavailable : bool
}.

Definition neutral : EmotionResult :=
  {| label := "neutral"; score := 1 # 2; ai_unavailable := true |}.

Definition emotion_model : string :=
  "j-hartmann/emotion-english-distilroberta-base".

Definition base_url : string :=
  "https://api-inference.huggingface.co/models".

(** [bool(self.api_token)] *)
Definition token_set (api_token : option string) : bool :=
  match api_token with
  | Some t => PyStr.truthy t
  | None => false
  end.

(** The lines of [analyze_emotion] from [result = response.json()] to the
    [return] that follows "Fallback if unexpected format". *)
Definition read_result (w : world) (result : json) : exn + EmotionResult :=
  match result with
  | JList (first :: rest) =>
      let emotions :=
        match first with
        | JList inner => inner
        | _ => first :: rest
        end in
      let? top_emotion := py_max w (fun x => Py.getitem x "score") emotions in
      let? l := Py.getitem top_emotion "label" in
      let? l := Py.lower l in
      let? sc := Py.getitem top_emotion "score" in
      let? sc := Py.round_ndigits3 sc in
      inr {| label := l; score := sc; ai_unavailable := false |}
  | _ => inr neutral
  end.

(** [analyze_emotion(self, text)] *)
Definition analyze_emotion (cfg : settings) (w : world) (text : string)
    : M EmotionResult :=
  if negb (token_set (HUGGINGFACE_API_TOKEN cfg)) then
    emit (LogWarning "Hugging Face API token not configured") ;;
    ret neutral
  else
    try_except
      (let request :=
         {| req_url := base_url +:+ "/" +:+ emotion_model;
            req_authorization :=
              "Bearer " +:+ default "" (HUGGINGFACE_API_TOKEN cfg);
            req_content_type := "application/json";
            req_inputs := text;
            req_timeout := 10 |} in
       emit (Post request) ;;
       let* response := lift (requests_post w request) in
       match raise_for_status response with
       | Some e => raise e
       | None => ret tt
       end ;;
       let* result := lift (response_json response) in
       lift (read_result w result))
      (fun e =>
         match e with
         | RequestException _ =>
             emit (LogError "Hugging Face API error: " e) ;;
             ret neutral
         | _ =>
             emit (LogError "Unexpected error in emotion analysis: " e) ;;
             ret neutral
         end).

(** [generate_advice(self, emotion_label, text)]; [text] is not used by
    the body. *)
Definition generate_advice (emotion_label : string) : string :=
  let emotion_key := PyStr.lower emotion_label in
  let advice_key := default emotion_key (emotion_mapping !! emotion_key) in
  let advice := default generic_advice (advice_templates !! advice_key) in
  advice +:+ disclaimer.

End HFClient.

(** ** ai/services.py: [SpotifyRecommendationService], the playlist
    recommender *)

Module SpotifyRecommendationService.

Record playlist := { title : string; url : string }.

Definition mood_playlists_items : list (string * list playlist) :=
  [ ("happy",
      [ {| title := "Feel Good Hits"; url := "https://open.spotify.com/playlist/37i9dQZF1DX3rxVfibe1L0" |};
        {| title := "Happy Pop"; url := "https://open.spotify.com/playlist/37i9dQZF1DXdPec7aLTmlC" |} ]);
    ("sad",
      [ {| title := "Sad Songs"; url := "https://open.spotify.com/playlist/37i9dQZF1DX7qK8ma5wgG1" |};
        {| title := "Melancholy Indie"; url := "https://open.spotify.com/playlist/37i9dQZF1DWX83CujKHHOn" |} ]);
    ("anxious",
      [ {| title := "Calm & Peaceful"; url := "https://open.spotify.com/playlist/37i9dQZF1DWU0ScTcjJBdj" |};
        {| title := "Focus Flow"; url := "https://open.spotify.com/playlist/37i9dQZF1DWZeKCadgRdKQ" |} ]);
    ("stressed",
      [ {| title := "Stress Relief"; url := "https://open.spotify.com/playlist/37i9dQZF1DX4sWSpwq3LiO" |};
        {| title := "Ambient Relaxation"; url := "https://open.spotify.com/playlist/37i9dQZF1DX0SM0LYsmbMT" |} ]);
    ("calm",
      [ {| title := "Peaceful Piano"; url := "https://open.spotify.com/playlist/37i9dQZF1DX4sWSpwq3LiO" |};
        {| title := "Nature Sounds"; url := "https://open.spotify.com/playlist/37i9dQZF1DWU0ScTcjJBdj" |} ]);
    ("excited",
      [ {| title := "Energy Boost"; url := "https://open.spotify.com/playlist/37i9dQZF1DX76Wlfdnj7AP" |};
        {| title := "Upbeat Pop"; url := "https://open.spotify.com/playlist/37i9dQZF1DXdPec7aLTmlC" |} ]);
    ("angry",
      [ {| title := "Anger Management"; url := "https://open.spotify.com/playlist/37i9dQZF1DX4sWSpwq3LiO" |};
        {| title := "Calming Classical"; url := "https://open.spotify.com/playlist/37i9dQZF1DWU0ScTcjJBdj" |} ]);
    ("energetic",
      [ {| title := "Workout Hits"; url := "https://open.spotify.com/playlist/37i9dQZF1DX76Wlfdnj7AP" |};
        {| title := "High Energy"; url := "https://open.spotify.com/playlist/37i9dQZF1DXdxcBWuJkbcy" |} ]);
    ("tired",
      [ {| title := "Gentle Acoustic"; url := "https://open.spotify.com/playlist/37i9dQZF1DX0XUsuxWHRQd" |};
        {| title := "Soft Rock"; url := "https://open.spotify.com/playlist/37i9dQZF1DWXRqgorJj26U" |} ]);
    ("content",
      [ {| title := "Chill Vibes"; url := "https://open.spotify.com/playlist/37i9dQZF1DX0XUsuxWHRQd" |};
        {| title := "Sunday Morning"; url := "https://open.spotify.com/playlist/37i9dQZF1DWU0ScTcjJBdj" |} ]) ].

Definition mood_playlists : gmap string (list playlist) :=
  list_to_map mood_playlists_items.

Definition emotion_to_mood_items : list (string * string) :=
  [ ("joy", "happy"); ("sadness", "sad"); ("fear", "anxious");
    ("anger", "angry"); ("surprise", "excited"); ("disgust", "angry") ].

Definition emotion_to_mood : gmap string string :=
  list_to_map emotion_to_mood_items.

(** [get_recommendations(self, mood)]. The default
    [self.mood_playlists['calm']] is an argument of [get], so it is
    evaluated, and could raise [KeyError], before the lookup. *)
Definition get_recommendations (mood : string) : exn + list playlist :=
  let mood_key := PyStr.lower mood in
  let playlist_key := default mood_key (emotion_to_mood !! mood_key) in
  let? calm :=
    match mood_playlists !! "calm" with
    | Some l => inr l
    | None => inl KeyError
    end in
  inr (default calm (mood_playlists !! playlist_key)).

End SpotifyRecommendationService.

(** ** users/models.py: [UserProfile.is_premium_active] *)

Definition is_premium_active (w : world) (self : UserProfile) : bool :=
  if negb (String.eqb (plan self) "PREMIUM") then false
  else
    match premium_expires_at self with
    | None => false
    | Some expires => (now w <? expires)%Z
    end.

(** ** ai/views.py *)

Module Views.

Import HFClient SpotifyRecommendationService.

(** The body of the 200 response. *)
Record analysis := {
  emotion_label : string;
  emotion_score : Q;
  analysis_advice : string;
  music_recommendations : list playlist;
  analysis_disclaimer : string;
  analysis_ai_unavailable : bool;
  mood_log_id : option Z
}.

Inductive Response :=
| HTTP_200_OK (data : analysis)
| HTTP_400_BAD_REQUEST (detail : string)
| HTTP_402_PAYMENT_REQUIRED
    (detail : string) (current_calls max_calls : Z) (user_plan : string)
| HTTP_500_INTERNAL_SERVER_ERROR (detail : string) (unavailable : bool).

(** The two tuples [check_ai_quota] returns: [(True, None)] and
    [(False, error_response)]. *)
Inductive quota :=
| HasQuota
| NoQuota (error_response : Response).

(** [request.data]: the keys the view reads. *)
Record request_data := {
  text : option string;
  user_mood : option string;
  persist : bool
}.

Definition with_calls (p : UserProfile) (calls : Z) (reset : option date)
    : UserProfile :=
  {| plan := plan p; premium_expires_at := premium_expires_at p;
     daily_ai_calls := calls; last_ai_calls_reset := reset |}.

(** [ensure_daily_reset(user)] *)
Definition ensure_daily_reset (w : world) : M unit :=
  let* profile := get_profile in
  let today := today w in
  if match last_ai_calls_reset profile with
     | None => true
     | Some last => date_ltb last today
     end
  then
    set_profile (with_calls profile 0 (Some today)) ;;
    emit (Save ["daily_ai_calls"; "last_ai_calls_reset"])
  else ret tt.

(** [check_ai_quota(user)] *)
Definition check_ai_quota (cfg : settings) (w : world) : M quota :=
  ensure_daily_reset w ;;
  let* profile := get_profile in
  let max_calls :=
    if is_premium_active w profile then PREMIUM_DAILY_AI_CALLS cfg
    else FREE_DAILY_AI_CALLS cfg in
  if (daily_ai_calls profile >=? max_calls)%Z then
    ret (NoQuota (HTTP_402_PAYMENT_REQUIRED
                    "Daily AI limit reached. Upgrade to Premium for more calls."
                    (daily_ai_calls profile) max_calls (plan profile)))
  else ret HasQuota.

(** [increment_ai_calls(user)] *)
Definition increment_ai_calls : M unit :=
  let* profile := get_profile in
  set_profile (with_calls profile (daily_ai_calls profile + 1)
                 (last_ai_calls_reset profile)) ;;
  emit (Save ["daily_ai_calls"]).

(** [MoodLog.objects.create(...)]: the row is added unless the database
    raises. *)
Definition objects_create (w : world) (row : MoodLog) : M MoodLog :=
  match insert_error w row with
  | Some e => raise e
  | None => add_mood_log row ;; ret row
  end.

(** [min(10, max(1, int(score * 10)))], where the product is a finite
    number. A [float] product that leaves the range of doubles is
    infinite and [int] raises [OverflowError] on it, inside the [try] of
    the view; the properties that use [intensity_of] are stated for
    scores within [Limits.product_fits]. *)
Definition intensity_of (score : Q) : Z :=
  Z.min 10 (Z.max 1 (Py.int (score * 10))).

(** [user_mood or label] *)
Definition mood_or (user_mood : option string) (label : string) : string :=
  match user_mood with
  | Some m => if PyStr.truthy m then m else label
  | None => label
  end.

(** [analyze_emotion(request)] *)
Definition analyze_emotion (cfg : settings) (w : world) (data : request_data)
    : M Response :=
  let* checked := check_ai_quota cfg w in
  match checked with
  | NoQuota error_response => ret error_response
  | HasQuota =>
      let text := PyStr.strip (default "" (text data)) in
      let user_mood := user_mood data in
      let persist := persist data in
      if negb (PyStr.truthy text) then
        ret (HTTP_400_BAD_REQUEST "Text is required for analysis")
      else if (PyStr.len text >? 1000)%Z then
        ret (HTTP_400_BAD_REQUEST "Text cannot exceed 1000 characters")
      else
        try_except
          (let* emotion_result := HFClient.analyze_emotion cfg w text in
           let advice := generate_advice (label emotion_result) in
           let* music_recommendations :=
             lift (get_recommendations (label emotion_result)) in
           increment_ai_calls ;;
           let* mood_log :=
             if persist then
               let* created :=
                 objects_create w
                   {| id := uuid4 w;
                      mood := mood_or user_mood (label emotion_result);
                      intensity := intensity_of (score emotion_result);
                      note := PyStr.take 1000 text;
                      detected_emotion := label emotion_result;
                      detected_confidence := score emotion_result;
                      advice := advice |} in
               ret (Some created)
             else ret None in
           ret (HTTP_200_OK
                  {| emotion_label := label emotion_result;
                     emotion_score := score emotion_result;
                     analysis_advice := advice;
                     music_recommendations := music_recommendations;
                     analysis_disclaimer :=
                       "This is general wellness advice and not a substitute for professional mental health support.";
                     analysis_ai_unavailable := ai_unavailable emotion_result;
                     mood_log_id := option_map id mood_log |}))
          (fun e =>
             emit (LogError "Error in emotion analysis: " e) ;;
             ret (HTTP_500_INTERNAL_SERVER_ERROR
                    "An error occurred during analysis. Please try again."
                    true))
  end.

End Views.


(** * The words of the specification

    Definitions that follow the specification's text, to be compared with
    the code above. *)

Module Spec.
Import HFClient SpotifyRecommendationService.

(** The entries of the ["calm"] bucket. *)
Definition calm_playlists : list playlist :=
  [ {| title := "Peaceful Piano";
       url := "https://open.spotify.com/playlist/37i9dQZF1DX4sWSpwq3LiO" |};
    {| title := "Nature Sounds";
       url := "https://open.spotify.com/playlist/37i9dQZF1DWU0ScTcjJBdj" |} ].

(** The key the playlist table is asked for: the input, lower-cased and
    passed through the recommender's own remapping table. *)
Definition playlist_key (mood : string) : string :=
  default (PyStr.lower mood) (emotion_to_mood !! PyStr.lower mood).

(** The bucket an advice label falls in: the label, lower-cased and
    passed through the advice remapping table. *)
Definition advice_bucket (label : string) : string :=
  default (PyStr.lower label) (emotion_mapping !! PyStr.lower label).

(** The disclaimer as the specification quotes it. *)
Definition quoted_disclaimer : string :=
  "general wellness advice, not a substitute for professional mental health support".

(** [s] ends with [suffix]. *)
Definition ends_with (s suffix : string) : Prop :=
  exists before : string, s = before +:+ suffix.

(** [sub] occurs in [s]. *)
Definition occurs_in (sub s : string) : Prop :=
  exists before after : string, s = before +:+ sub +:+ after.

(** [a] is a day strictly before [b]. *)
Definition date_before (a b : date) : Prop :=
  (year a < year b
   \/ (year a = year b
       /\ (month a < month b \/ (month a = month b /\ day a < day b))))%Z.

(** The test [not last or last < today], as the code evaluates it. *)
Definition reset_test (today : date) (p : UserProfile) : bool :=
  match last_ai_calls_reset p with
  | None => true
  | Some last => date_ltb last today
  end.

(** The last reset date is null or strictly before today. *)
Definition reset_due (today : date) (p : UserProfile) : Prop :=
  last_ai_calls_reset p = None
  \/ exists last : date,
       last_ai_calls_reset p = Some last /\ date_before last today.

(** The plan is PREMIUM and its expiry is strictly in the future. *)
Definition premium_in_force (now : Z) (p : UserProfile) : Prop :=
  plan p = "PREMIUM"
  /\ exists expires : Z, premium_expires_at p = Some expires /\ (now < expires)%Z.

(** The score of an entry of the payload, when it is a number. *)
Definition score_of (entry : json) : option Q :=
  match entry with
  | JDict d =>
      match d !! "score" with
      | Some v => Py.number v
      | None => None
      end
  | _ => None
  end.

(** The label of an entry of the payload, when it is a string. *)
Definition label_of (entry : json) : option string :=
  match entry with
  | JDict d =>
      match d !! "label" with
      | Some (JStr l) => Some l
      | _ => None
      end
  | _ => None
  end.

(** The entries of a payload: the inner list of a nested one, the list
    itself when it is flat; nothing for an empty list or another value. *)
Definition emotions_of (payload : json) : option (list json) :=
  match payload with
  | JList (JList inner :: _) => Some inner
  | JList (first :: rest) => Some (first :: rest)
  | _ => None
  end.


(** No event of the list is a request to the classification service. *)
Definition no_request (events : list event) : Prop :=
  Forall (fun ev => forall r, ev <> Post r) events.

(** No event of the list is a write to the user's row. *)
Definition no_save (events : list event) : Prop :=
  Forall (fun ev => forall fields, ev <> Save fields) events.

(** The integer part of [q]: the fraction is dropped, toward zero. *)
Definition truncate (q : Q) : Z :=
  if Qle_bool 0 q then Qfloor q else Qceiling q.

(** The intensity as the specification words it:
    [clamp(round(score * 10), 1, 10)], with Python's [round]. *)
Definition intensity_by_rounding (score : Q) : Z :=
  Z.min 10 (Z.max 1 (Py.round_half_even (score * 10))).


End Spec.

(** * Named pieces of the code

    Sub-expressions of the functions above, named so that lemmas can be
    stated about them. *)

Module Steps.
Import HFClient.

(** [lambda x: x['score']], the key of [max] in [analyze_emotion]. *)
Definition score_key (x : json) : exn + json := Py.getitem x "score".

(** The [return] of [analyze_emotion] that follows [max]. *)
Definition read_top (top_emotion : json) : exn + EmotionResult :=
  let? l := Py.getitem top_emotion "label" in
  let? l := Py.lower l in
  let? sc := Py.getitem top_emotion "score" in
  let? sc := Py.round_ndigits3 sc in
  inr {| label := l; score := sc; ai_unavailable := false |}.

(** [request.data.get('text', '').strip()] *)
Definition text_of (data : Views.request_data) : string :=
  PyStr.strip (default "" (Views.text data)).

(** [max_calls] of [check_ai_quota]. *)
Definition max_calls (cfg : settings) (w : world) (p : UserProfile) : Z :=
  if is_premium_active w p then PREMIUM_DAILY_AI_CALLS cfg
  else FREE_DAILY_AI_CALLS cfg.

(** The response of [check_ai_quota] when the quota is used up. *)
Definition quota_error (cfg : settings) (w : world) (p : UserProfile)
    : Views.Response :=
  Views.HTTP_402_PAYMENT_REQUIRED
    "Daily AI limit reached. Upgrade to Premium for more calls."
    (daily_ai_calls p) (max_calls cfg w p) (plan p).

(** The arguments of [MoodLog.objects.create] in [analyze_emotion]. *)
Definition mood_log_row (w : world) (data : Views.request_data)
    (emotion_result : EmotionResult) : MoodLog :=
  {| id := uuid4 w;
     mood := Views.mood_or (Views.user_mood data) (label emotion_result);
     intensity := Views.intensity_of (score emotion_result);
     note := PyStr.take 1000 (text_of data);
     detected_emotion := label emotion_result;
     detected_confidence := score emotion_result;
     advice := generate_advice (label emotion_result) |}.

(** [response_data] of [analyze_emotion]. *)
Definition response_data (emotion_result : EmotionResult)
    (music : list SpotifyRecommendationService.playlist)
    (log_id : option Z) : Views.analysis :=
  {| Views.emotion_label := label emotion_result;
     Views.emotion_score := score emotion_result;
     Views.analysis_advice := generate_advice (label emotion_result);
     Views.music_recommendations := music;
     Views.analysis_disclaimer :=
       "This is general wellness advice and not a substitute for professional mental health support.";
     Views.analysis_ai_unavailable := ai_unavailable emotion_result;
     Views.mood_log_id := log_id |}.

(** The store after [increment_ai_calls]. *)
Definition incremented (s : store) : store :=
  {| profile :=
       Views.with_calls (profile s) (daily_ai_calls (profile s) + 1)
         (last_ai_calls_reset (profile s));
     mood_logs := mood_logs s;
     trace := trace s ++ [Save ["daily_ai_calls"]] |}.

End Steps.

(** * Sample data for concrete runs *)

Module Sample.

Definition cfg : settings :=
  {| HUGGINGFACE_API_TOKEN := Some "hf_token";
     FREE_DAILY_AI_CALLS := 5;
     PREMIUM_DAILY_AI_CALLS := 200 |}.

Definition cfg_no_token : settings :=
  {| HUGGINGFACE_API_TOKEN := None;
     FREE_DAILY_AI_CALLS := 5;
     PREMIUM_DAILY_AI_CALLS := 200 |}.

(** The service answers [payload] with a success status. *)
Definition answering (payload : json) : world :=
  {| today := {| year := 2025; month := 9; day := 2 |};
     now := 1756800000000000;
     requests_post := fun _ =>
       inr {| raise_for_status := None; response_json := inr payload |};
     uuid4 := 42;
     insert_error := fun _ => None;
     gt_other := fun _ _ => inl TypeError |}.

Definition entry (label : string) (score : Q) : json :=
  JDict (<["label" := JStr label]> (<["score" := JNum score]> ∅)).

(** The payload of the repository's tests: [[{'label': 'joy', 'score': 0.95}]]. *)
Definition joy_world : world := answering (JList [JList [entry "joy" (95 # 100)]]).

Definition user (calls : Z) (reset : option date) : UserProfile :=
  {| plan := "FREE"; premium_expires_at := None;
     daily_ai_calls := calls; last_ai_calls_reset := reset |}.

Definition premium_user (calls : Z) (expires : option Z) : UserProfile :=
  {| plan := "PREMIUM"; premium_expires_at := expires;
     daily_ai_calls := calls; last_ai_calls_reset := Some (today joy_world) |}.

(** A stronger second entry comes after a weaker first one. *)
Definition confident_world : world :=
  answering (JList [JList [entry "sadness" (3 # 100); entry "joy" (97 # 100)]]).

Definition store_of (p : UserProfile) : store :=
  {| profile := p; mood_logs := []; trace := [] |}.

End Sample.

(** * More of the code *)

(** ** users/models.py: the rest of [UserProfile] *)

Module Users.

(** [UserProfile.remaining_ai_calls] *)
Definition remaining_ai_calls (cfg : settings) (w : world) (self : UserProfile)
    : Z :=
  let max_calls :=
    if is_premium_active w self then PREMIUM_DAILY_AI_CALLS cfg
    else FREE_DAILY_AI_CALLS cfg in
  Z.max 0 (max_calls - daily_ai_calls self).

(** The row [create_user_profile] makes for a new user,
    [UserProfile.objects.create(user=instance)]: every column at its
    default. *)
Definition create_user_profile : UserProfile :=
  {| plan := "FREE"; premium_expires_at := None;
     daily_ai_calls := 0; last_ai_calls_reset := None |}.

End Users.

(** ** ai/views.py: the recommendation endpoint *)

Module MusicView.
Import SpotifyRecommendationService.

Inductive Response :=
| HTTP_200_OK (mood : string) (playlists : list playlist)
| HTTP_400_BAD_REQUEST (detail : string)
| HTTP_500_INTERNAL_SERVER_ERROR (detail : string).

(** [music_recommendations(request)]; the argument is
    [request.query_params.get('mood')]. *)
Definition music_recommendations (mood : option string) : M Response :=
  if negb (match mood with Some m => PyStr.truthy m | None => false end) then
    ret (HTTP_400_BAD_REQUEST "Mood parameter is required")
  else
    let mood := default "" mood in
    try_except
      (let* playlists := lift (get_recommendations mood) in
       ret (HTTP_200_OK mood playlists))
      (fun e =>
         emit (LogError "Error getting music recommendations: " e) ;;
         ret (HTTP_500_INTERNAL_SERVER_ERROR
                "An error occurred getting recommendations. Please try again.")).

End MusicView.

(** ** moods/serializers.py *)

Module MoodSerializers.

(** [validate_note(self, value)] of [MoodLogSerializer] and of
    [MoodLogCreateSerializer] (the two bodies are the same): the left
    side is the message of the [ValidationError] raised. *)
Definition validate_note (value : option string) : string + option string :=
  if match value with
     | Some v => PyStr.truthy v && (PyStr.len v >? 1000)%Z
     | None => false
     end
  then inl "Note cannot exceed 1000 characters"
  else inr value.

End MoodSerializers.

(** ** payments/models.py *)

Module Payments.

(** The columns of [Payment] that [process_success] reads or writes,
    with [duration_days] standing for [self.plan.duration_days]. *)
Record Payment := {
  status : string;
  duration_days : Z
}.

(** [timezone.timedelta(days=n)] in microseconds. *)
Definition timedelta_days (n : Z) : Z := n * 86400000000.

(** [Payment.process_success(self)], on the payment and the profile of
    its user. [now_test] is what [timezone.now()] gives in the test of
    the [if], [now_new] what it gives in the [else] branch. Instants are
    unbounded here; in Python the sum raises [OverflowError] past the
    year 9999, after the payment has been saved as a success, so what a
    processing grants is stated within [Limits.renewal_fits]. *)
Definition process_success (now_test now_new : Z)
    (self : Payment) (profile : UserProfile) : Payment * UserProfile :=
  if String.eqb (status self) "SUCCESS" then (self, profile)
  else
    let self := {| status := "SUCCESS"; duration_days := duration_days self |} in
    let expires :=
      match premium_expires_at profile with
      | Some old =>
          if (old >? now_test)%Z
          then (old + timedelta_days (duration_days self))%Z
          else (now_new + timedelta_days (duration_days self))%Z
      | None => (now_new + timedelta_days (duration_days self))%Z
      end in
    (self,
     {| plan := "PREMIUM"; premium_expires_at := Some expires;
        daily_ai_calls := 0;
        last_ai_calls_reset := last_ai_calls_reset profile |}).

End Payments.

(** ** payments/webhooks.py *)

Module Webhooks.
Import Payments.

(** A row of the payments table: the columns [process_success] uses, the
    primary key and the [webhook_data] column. *)
Record row := {
  id : Z;
  payment : Payment;
  webhook_data : option json
}.

Inductive Response :=
| AlreadyProcessed
| Processed (payment_id : Z) (payment_status : string).

(** [state in [...]] *)
Definition state_in (state : string) (states : list string) : bool :=
  existsb (String.eqb state) states.

(** The part of [intasend_webhook] that follows the lookup of the
    payment, from "Check if already processed" to the last [return] of
    the [try]: [state] is the upper-cased state of the notification,
    [data] the notification, [r] the row found and [p] the profile of its
    user, which is taken to exist so that [process_success] does not
    raise. The result holds the response and what the database holds
    afterwards; [webhook_data] reaches the database only where it is
    among the [update_fields] of the [save]. *)
Definition handle_state (now_test now_new : Z) (state : string) (data : json)
    (r : row) (p : UserProfile) : Response * row * UserProfile :=
  if String.eqb (status (payment r)) "SUCCESS" && String.eqb state "COMPLETE"
  then (AlreadyProcessed, r, p)
  else if state_in state ["COMPLETE"; "COMPLETED"; "SUCCESS"] then
    let done := process_success now_test now_new (payment r) p in
    (Processed (id r) (status done.1),
     {| id := id r; payment := done.1; webhook_data := webhook_data r |},
     done.2)
  else if state_in state ["FAILED"; "CANCELLED"; "EXPIRED"] then
    (Processed (id r) "FAILED",
     {| id := id r;
        payment := {| status := "FAILED";
                      duration_days := duration_days (payment r) |};
        webhook_data := Some data |},
     p)
  else
    (Processed (id r) (status (payment r)),
     {| id := id r; payment := payment r; webhook_data := Some data |},
     p).

End Webhooks.

(** ** Texts made of white space *)

Module Text.

(** Every character of [s] is white space. *)
Fixpoint blank (s : string) : bool :=
  match s with
  | EmptyString => true
  | String c r => PyStr.is_space c && blank r
  end.

End Text.

(** ** More sample data *)

Module Sample2.

(** The service answers joy at 0.95 and the database refuses every row. *)
Definition refusing_world : world :=
  {| today := today Sample.joy_world;
     now := now Sample.joy_world;
     requests_post := requests_post Sample.joy_world;
     uuid4 := 42;
     insert_error := fun _ => Some DatabaseError;
     gt_other := fun _ _ => inl TypeError |}.

End Sample2.

(** ** A user's requests, one after the other *)

Module Session.

(** The analysis view run on each request of the list in turn, each with
    the world it meets; the responses are dropped, the store is kept. *)
Fixpoint analyze_all (cfg : settings)
    (requests : list (world * Views.request_data)) (s : store) : store :=
  match requests with
  | [] => s
  | (w, data) :: rest =>
      analyze_all cfg rest (Views.analyze_emotion cfg w data s).2
  end.

(** How many requests to the classification service a trace holds. *)
Fixpoint posts (events : list event) : Z :=
  match events with
  | [] => 0
  | Post _ :: rest => 1 + posts rest
  | _ :: rest => posts rest
  end.

End Session.

(** ** Lower case, said without the code *)

Module Casing.



End Casing.

(** ** The limits of Python's numbers and dates

    The code above is modelled on exact numbers and unbounded instants.
    Python raises [OverflowError] where a [float] product leaves the
    range of doubles, where a [timedelta] has more than 999999999 days
    and where a [datetime] leaves the years 1 to 9999. The properties
    that depend on it are stated within these limits. *)

Module Limits.

(** From this magnitude on a product of two doubles rounds to infinity:
    [2 ^ 1024 - 2 ^ 970]. *)
Definition float_overflow : Q := inject_Z (2 ^ 1024 - 2 ^ 970).

(** [score * 10] is finite, so that [int(score * 10)] returns. *)
Definition product_fits (score : Q) : Prop :=
  (Qabs (score * 10) < float_overflow)%Q.

(** [q] is a whole number of thousandths, as [round(x, 3)] returns and as
    the neutral score 0.5 is. A Python [float] holds the double nearest
    to such a number; its product with 10 in doubles leads to the same
    intensity as the exact product does. *)
Definition thousandths (q : Q) : Prop := exists k : Z, (q == k # 1000)%Q.

(** The first and the last instant of [datetime], in microseconds from
    1970-01-01T00:00:00Z: 0001-01-01T00:00:00 and
    9999-12-31T23:59:59.999999. *)
Definition datetime_min : Z := -62135596800000000.
Definition datetime_max : Z := 253402300799999999.

Definition datetime_ok (t : Z) : Prop := (datetime_min <= t <= datetime_max)%Z.

(** [timedelta(days=n)] can be built. *)
Definition timedelta_ok (days : Z) : Prop :=
  (-999999999 <= days <= 999999999)%Z.

(** [process_success] meets no overflow: the duration makes a
    [timedelta], and adding it to the instant of processing, or to the
    expiry the profile holds, gives a [datetime]. *)
Definition renewal_fits (now_new : Z) (days : Z) (p : UserProfile) : Prop :=
  timedelta_ok days
  /\ datetime_ok (now_new + Payments.timedelta_days days)
  /\ forall old : Z,
       premium_expires_at p = Some old ->
       datetime_ok (old + Payments.timedelta_days days).

End Limits.

(** ** A payload with capitals, a tie and a long fraction *)

Module Sample3.

(** [[{'label': 'Sadness', 'score': 0.25}, {'label': 'JOY', 'score':
    0.95678}, {'label': 'Fear', 'score': 0.95678}]] *)
Definition mixed_entries : list json :=
  [ Sample.entry "Sadness" (25 # 100);
    Sample.entry "JOY" (95678 # 100000);
    Sample.entry "Fear" (95678 # 100000) ].

Definition mixed_world : world := Sample.answering (JList [JList mixed_entries]).

End Sample3.

(** * Properties *)

(** ** Concrete runs *)

Example lower_joy : PyStr.lower "JoY" = "joy".
Proof. reflexivity. Qed.

Example strip_spaces : PyStr.strip "  a b  " = "a b".
Proof. reflexivity. Qed.

Example advice_joy_positive_energy :
  PyStr.contains (HFClient.generate_advice "Joy") "positive energy" = true.
Proof. vm_compute. reflexivity. Qed.

(** The scenario of the repository's tests: a fresh free user, the
    service answering [[{'label': 'joy', 'score': 0.95}]], persist set. *)
Example analyze_joy_and_persist :
  exists body s',
    Views.analyze_emotion Sample.cfg Sample.joy_world
      {| Views.text := Some "I'm feeling amazing today!";
         Views.user_mood := None; Views.persist := true |}
      (Sample.store_of (Sample.user 0 None))
    = (inr (Views.HTTP_200_OK body), s')
    /\ Views.emotion_label body = "joy"
    /\ Views.emotion_score body = 19 # 20
    /\ Views.analysis_ai_unavailable body = false
    /\ Views.mood_log_id body = Some 42%Z
    /\ daily_ai_calls (profile s') = 1%Z
    /\ map intensity (mood_logs s') = [9%Z].
Proof. do 2 eexists. vm_compute. repeat split; reflexivity. Qed.

(** Ties go to the entry that comes first. *)
Example tie_goes_to_first :
  HFClient.read_result (Sample.answering JNull)
    (JList [Sample.entry "Fear" (1 # 2); Sample.entry "joy" (1 # 2)])
  = inr {| HFClient.label := "fear"; HFClient.score := 1 # 2;
           HFClient.ai_unavailable := false |}.
Proof. vm_compute. reflexivity. Qed.

(** A score that is a string makes the result the neutral one. *)
Example string_score_degrades :
  (HFClient.analyze_emotion Sample.cfg
     (Sample.answering
        (JList [JDict (<["label" := JStr "joy"]> (<["score" := JStr "0.9"]> ∅))]))
     "text" (Sample.store_of (Sample.user 0 None))).1
  = inr HFClient.neutral.
Proof. vm_compute. reflexivity. Qed.

Example recommendations_unknown_mood :
  SpotifyRecommendationService.get_recommendations "unknown_mood"
  = inr Spec.calm_playlists.
Proof. vm_compute. reflexivity. Qed.

Example recommendations_joy_is_happy :
  SpotifyRecommendationService.get_recommendations "joy"
  = inr [ {| SpotifyRecommendationService.title := "Feel Good Hits";
             SpotifyRecommendationService.url :=
               "https://open.spotify.com/playlist/37i9dQZF1DX3rxVfibe1L0" |};
          {| SpotifyRecommendationService.title := "Happy Pop";
             SpotifyRecommendationService.url :=
               "https://open.spotify.com/playlist/37i9dQZF1DXdPec7aLTmlC" |} ].
Proof. vm_compute. reflexivity. Qed.

(** ** Lookup tables built from their entries *)

Section Tables.
Context {V : Type}.

(** Whatever holds of every entry of the source holds of every value
    the table returns. *)
Lemma table_lookup_Forall (P : string -> V -> Prop)
    (items : list (string * V)) (k : string) (v : V) :
  Forall (fun kv => P kv.1 kv.2) items ->
  (list_to_map items : gmap string V) !! k = Some v ->
  P k v.
Proof.
  intros Hall Hk.
  apply elem_of_list_to_map_2 in Hk.
  rewrite Forall_forall in Hall.
  exact (Hall (k, v) Hk).
Qed.

End Tables.

(** ** The playlist recommender *)

Module RecommenderFacts.
Import SpotifyRecommendationService Spec.

Lemma calm_bucket : mood_playlists !! "calm" = Some calm_playlists.
Proof. vm_compute. reflexivity. Qed.

Lemma buckets_have_two (k : string) (l : list playlist) :
  mood_playlists !! k = Some l -> length l = 2%nat.
Proof.
  apply (table_lookup_Forall (fun _ l => length l = 2%nat)).
  unfold mood_playlists_items.
  repeat constructor.
Qed.

Lemma get_recommendations_eq (mood : string) :
  get_recommendations mood
  = inr (default calm_playlists (mood_playlists !! playlist_key mood)).
Proof.
  unfold get_recommendations. rewrite calm_bucket. reflexivity.
Qed.

(** C9. For every input string [get_recommendations] returns, without
    raising, a list that is not empty; and when the key obtained by
    lower-casing the input and passing it through [emotion_to_mood] is
    not a key of the playlist table, the list is the ["calm"] bucket's
    list, whatever the input was. *)
Theorem recommendations_never_empty_and_default_calm (mood : string) :
  exists l : list playlist,
    get_recommendations mood = inr l
    /\ l <> []
    /\ (mood_playlists !! playlist_key mood = None ->
        l = calm_playlists /\ mood_playlists !! "calm" = Some l).
Proof.
  rewrite get_recommendations_eq.
  destruct (mood_playlists !! playlist_key mood) as [l|] eqn:Hk.
  - exists l. split; [reflexivity|]. split; [|discriminate].
    apply buckets_have_two in Hk. destruct l; [discriminate|congruence].
  - exists calm_playlists. split; [reflexivity|]. split; [discriminate|].
    intros _. split; [reflexivity|apply calm_bucket].
Qed.

End RecommenderFacts.

(** ** The advice generator *)

Module AdviceFacts.
Import HFClient Spec.

Lemma prefix_append (sub rest : string) : String.prefix sub (sub +:+ rest) = true.
Proof.
  induction sub as [|c sub IH]; simpl.
  - destruct rest; reflexivity.
  - destruct (ascii_dec c c) as [_|Hne]; [exact IH|congruence].
Qed.

Lemma contains_unfold (s sub : string) :
  PyStr.contains s sub
  = String.prefix sub s
    || match s with
       | EmptyString => false
       | String _ r => PyStr.contains r sub
       end.
Proof. destruct s; reflexivity. Qed.

(** [PyStr.contains] finds every occurrence. *)
Lemma contains_complete (s sub : string) :
  occurs_in sub s -> PyStr.contains s sub = true.
Proof.
  intros (before & after & ->).
  induction before as [|c before IH].
  - change ("" +:+ sub +:+ after) with (sub +:+ after).
    rewrite contains_unfold, prefix_append. reflexivity.
  - rewrite contains_unfold.
    change ((String c before) +:+ sub +:+ after)
      with (String c (before +:+ sub +:+ after)).
    cbv beta iota. rewrite IH. apply orb_true_r.
Qed.

Lemma ends_with_occurs (s suffix : string) :
  ends_with s suffix -> occurs_in suffix s.
Proof.
  intros (before & ->). exists before, "".
  f_equal. induction suffix as [|c r IH]; [reflexivity|].
  change (String c r = String c (r +:+ "")). congruence.
Qed.

(** Every bucket the remapping table names has a template. *)
Lemma mapped_bucket_has_template (k bucket : string) :
  emotion_mapping !! k = Some bucket ->
  is_Some (advice_templates !! bucket).
Proof.
  apply (table_lookup_Forall (fun _ b => is_Some (advice_templates !! b))).
  unfold emotion_mapping_items.
  repeat (constructor; [vm_compute; eauto|]). constructor.
Qed.

(** The keys of the remapping table are already lower case. *)
Lemma mapping_keys_lower (k bucket : string) :
  emotion_mapping !! k = Some bucket -> PyStr.lower k = k.
Proof.
  apply (table_lookup_Forall (fun k _ => PyStr.lower k = k)).
  unfold emotion_mapping_items.
  repeat (constructor; [reflexivity|]). constructor.
Qed.

(** C8, as the specification words it, fails: the advice for ["joy"] does
    not end with the quoted disclaimer, and the quoted text does not even
    occur in it (the code writes "advice and not a substitute", and a
    full stop after "support"). *)
Lemma quoted_disclaimer_absent_from_joy_advice :
  ~ ends_with (generate_advice "joy") quoted_disclaimer
  /\ ~ occurs_in quoted_disclaimer (generate_advice "joy").
Proof.
  assert (H : ~ occurs_in quoted_disclaimer (generate_advice "joy")).
  { intros Hocc. apply contains_complete in Hocc.
    vm_compute in Hocc. discriminate. }
  split; [|exact H].
  intros Hend. apply H, ends_with_occurs, Hend.
Qed.

(** C8, amended. For every label, [generate_advice] lower-cases it, remaps
    it through [emotion_mapping] (keeping the label when it is absent),
    takes that bucket's template or the generic "all emotions are valid"
    text, and appends the disclaimer of the code, so the result always
    ends with [" Remember, this is general wellness advice and not a
    substitute for professional mental health support."]; and for every
    label of the remapping table, given in any casing, the result is the
    canonical bucket's template followed by that disclaimer. *)
Theorem advice_is_template_then_disclaimer (label : string) :
  generate_advice label
  = default generic_advice (advice_templates !! advice_bucket label)
    +:+ disclaimer
  /\ ends_with (generate_advice label) disclaimer
  /\ occurs_in "all emotions are valid" generic_advice
  /\ (forall bucket : string,
        emotion_mapping !! PyStr.lower label = Some bucket
        \/ emotion_mapping !! label = Some bucket ->
        exists template : string,
          advice_templates !! bucket = Some template
          /\ generate_advice label = template +:+ disclaimer
          /\ occurs_in template (generate_advice label)).
Proof.
  split; [reflexivity|].
  split; [eexists; reflexivity|].
  split.
  { exists "Take a moment to acknowledge your feelings. Remember that ",
           " and temporary.". reflexivity. }
  intros bucket Hb.
  assert (Hk : emotion_mapping !! PyStr.lower label = Some bucket).
  { destruct Hb as [Hb|Hb]; [exact Hb|].
    rewrite (mapping_keys_lower _ _ Hb). exact Hb. }
  destruct (mapped_bucket_has_template _ _ Hk) as [template Ht].
  exists template.
  assert (E : generate_advice label = template +:+ disclaimer).
  { unfold generate_advice. rewrite Hk. simpl. rewrite Ht. reflexivity. }
  split; [exact Ht|]. split; [exact E|].
  exists "", disclaimer. rewrite E. reflexivity.
Qed.

End AdviceFacts.

(** ** The quota manager *)

Module QuotaFacts.
Import Views Spec.

Lemma date_ltb_before (a b : date) : date_ltb a b = true <-> date_before a b.
Proof. unfold date_ltb, date_before. lia. Qed.

Lemma date_ltb_irrefl (d : date) : date_ltb d d = false.
Proof. unfold date_ltb. lia. Qed.

(** The test of [ensure_daily_reset] decides [reset_due]. *)
Lemma reset_test_due (today : date) (p : UserProfile) :
  reset_test today p = true <-> reset_due today p.
Proof.
  unfold reset_test, reset_due. destruct (last_ai_calls_reset p) as [last|].
  - rewrite date_ltb_before. split.
    + intros H. right. exists last. split; [reflexivity|exact H].
    + intros [H|(l & [= <-] & H)]; [discriminate|exact H].
  - split; [left; reflexivity|reflexivity].
Qed.

(** One run of [ensure_daily_reset], step by step. *)
Lemma ensure_daily_reset_run (w : world) (s : store) :
  ensure_daily_reset w s
  = (inr tt,
     if reset_test (today w) (profile s) then
       {| profile := with_calls (profile s) 0 (Some (today w));
          mood_logs := mood_logs s;
          trace := trace s ++ [Save ["daily_ai_calls"; "last_ai_calls_reset"]] |}
     else s).
Proof.
  unfold ensure_daily_reset, reset_test, bind, get_profile.
  destruct (match last_ai_calls_reset (profile s) with
            | None => true
            | Some last => date_ltb last (today w)
            end); reflexivity.
Qed.

Lemma ensure_daily_reset_returns (w : world) (s : store) :
  (ensure_daily_reset w s).1 = inr tt.
Proof. rewrite ensure_daily_reset_run. reflexivity. Qed.

(** The reset leaves the plan, its expiry and the mood logs alone. *)
Lemma ensure_daily_reset_frame (w : world) (s : store) :
  let after := (ensure_daily_reset w s).2 in
  plan (profile after) = plan (profile s)
  /\ premium_expires_at (profile after) = premium_expires_at (profile s)
  /\ mood_logs after = mood_logs s.
Proof.
  unfold ensure_daily_reset, bind, get_profile.
  destruct (match last_ai_calls_reset (profile s) with
            | None => true
            | Some last => date_ltb last (today w)
            end); simpl; auto.
Qed.

(** C4. [ensure_daily_reset] sets the call counter to 0 and the reset
    date to today exactly when the reset date is null or strictly before
    today, and otherwise changes nothing; a second call on the same day
    changes nothing at all. *)
Theorem ensure_daily_reset_exactly_when_due_and_idempotent
    (w w' : world) (s : store) :
  today w' = today w ->
  let after := (ensure_daily_reset w s).2 in
  (ensure_daily_reset w s).1 = inr tt
  /\ (reset_due (today w) (profile s) ->
      daily_ai_calls (profile after) = 0
      /\ last_ai_calls_reset (profile after) = Some (today w)
      /\ trace after
         = (trace s ++ [Save ["daily_ai_calls"; "last_ai_calls_reset"]])%list)
  /\ (~ reset_due (today w) (profile s) -> after = s)
  /\ ensure_daily_reset w' after = (inr tt, after).
Proof.
  intros Hday after. split; [apply ensure_daily_reset_returns|].
  subst after. rewrite !ensure_daily_reset_run, Hday. cbn [snd].
  pose proof (reset_test_due (today w) (profile s)) as Hdue.
  unfold reset_test in *.
  destruct (match last_ai_calls_reset (profile s) with
            | None => true
            | Some last => date_ltb last (today w)
            end) eqn:Htest.
  - cbn. rewrite date_ltb_irrefl.
    split; [auto|]. split; [|reflexivity].
    intros Hn. exfalso. apply Hn, Hdue. reflexivity.
  - rewrite Htest.
    split; [intros H; apply Hdue in H; discriminate|].
    split; reflexivity.
Qed.

Lemma ensure_daily_reset_witness :
  today Sample.joy_world = today Sample.joy_world
  /\ ensure_daily_reset Sample.joy_world
       (ensure_daily_reset Sample.joy_world
          (Sample.store_of (Sample.user 3 None))).2
     = (inr tt,
        (ensure_daily_reset Sample.joy_world
           (Sample.store_of (Sample.user 3 None))).2).
Proof.
  split; [reflexivity|].
  apply (ensure_daily_reset_exactly_when_due_and_idempotent
           Sample.joy_world Sample.joy_world
           (Sample.store_of (Sample.user 3 None))).
  reflexivity.
Defined.

(** [is_premium_active] decides [premium_in_force]. *)
Lemma is_premium_active_in_force (w : world) (p : UserProfile) :
  is_premium_active w p = true <-> premium_in_force (now w) p.
Proof.
  unfold is_premium_active, premium_in_force.
  destruct (String.eqb_spec (plan p) "PREMIUM") as [Hp|Hp]; simpl.
  - destruct (premium_expires_at p) as [expires|].
    + rewrite Z.ltb_lt. split.
      * intros H. split; [exact Hp|]. exists expires. auto.
      * intros (_ & e & [= <-] & H). exact H.
    + split; [discriminate|]. intros (_ & e & [=] & _).
  - split; [discriminate|]. intros [H _]. contradiction.
Qed.

(** One run of [check_ai_quota], step by step. *)
Lemma check_ai_quota_run (cfg : settings) (w : world) (s : store) :
  let s1 := (ensure_daily_reset w s).2 in
  let max_calls :=
    if is_premium_active w (profile s1) then PREMIUM_DAILY_AI_CALLS cfg
    else FREE_DAILY_AI_CALLS cfg in
  check_ai_quota cfg w s
  = (inr (if (daily_ai_calls (profile s1) <? max_calls)%Z then HasQuota
          else NoQuota
                 (HTTP_402_PAYMENT_REQUIRED
                    "Daily AI limit reached. Upgrade to Premium for more calls."
                    (daily_ai_calls (profile s1)) max_calls
                    (plan (profile s1)))),
     s1).
Proof.
  intros s1 max_calls. subst s1 max_calls.
  unfold check_ai_quota, bind. rewrite ensure_daily_reset_run. cbn [snd].
  set (s1 := if reset_test (today w) (profile s) then _ else s).
  unfold get_profile.
  set (max_calls := if is_premium_active w (profile s1) then _ else _).
  rewrite Z.geb_leb, Z.ltb_antisym.
  destruct (max_calls <=? daily_ai_calls (profile s1))%Z; reflexivity.
Qed.

(** C3. [check_ai_quota] first performs the daily reset; the ceiling it
    compares with is the premium one exactly when the plan is PREMIUM and
    its expiry is strictly in the future, and the free one otherwise; and
    it answers "has quota" if and only if the count after the reset is
    below that ceiling, the refusal carrying count, ceiling and plan. *)
Theorem check_ai_quota_resets_then_compares_with_plan_ceiling
    (cfg : settings) (w : world) (s : store) :
  let s1 := (ensure_daily_reset w s).2 in
  exists (max_calls : Z) (answer : quota),
    check_ai_quota cfg w s = (inr answer, s1)
    /\ (premium_in_force (now w) (profile s) ->
        max_calls = PREMIUM_DAILY_AI_CALLS cfg)
    /\ (~ premium_in_force (now w) (profile s) ->
        max_calls = FREE_DAILY_AI_CALLS cfg)
    /\ (answer = HasQuota <-> (daily_ai_calls (profile s1) < max_calls)%Z)
    /\ (answer <> HasQuota ->
        answer = NoQuota
                   (HTTP_402_PAYMENT_REQUIRED
                      "Daily AI limit reached. Upgrade to Premium for more calls."
                      (daily_ai_calls (profile s1)) max_calls
                      (plan (profile s)))).
Proof.
  intros s1. pose proof (check_ai_quota_run cfg w s) as Hrun.
  cbv zeta in Hrun. fold s1 in Hrun.
  destruct (ensure_daily_reset_frame w s) as (Hplan & Hexp & _). fold s1 in Hplan, Hexp.
  assert (Hact : is_premium_active w (profile s1) = is_premium_active w (profile s)).
  { unfold is_premium_active. rewrite Hplan, Hexp. reflexivity. }
  rewrite Hact, Hplan in Hrun.
  pose proof (is_premium_active_in_force w (profile s)) as Hforce.
  set (max_calls := if is_premium_active w (profile s) then _ else _) in Hrun.
  exists max_calls. eexists. split; [exact Hrun|].
  split; [|split; [|split]].
  - intros H. apply Hforce in H. subst max_calls. rewrite H. reflexivity.
  - intros H. subst max_calls.
    destruct (is_premium_active w (profile s)); [|reflexivity].
    exfalso. apply H, Hforce. reflexivity.
  - destruct (Z.ltb_spec (daily_ai_calls (profile s1)) max_calls);
      split; intros; try reflexivity; try discriminate; lia.
  - destruct (daily_ai_calls (profile s1) <? max_calls)%Z;
      [intros H; contradiction|reflexivity].
Qed.

(** C10. A profile whose plan is PREMIUM but whose expiry is null is not
    premium-active, and the quota check holds it to the free ceiling. *)
Theorem premium_without_expiry_is_held_to_free_ceiling
    (cfg : settings) (w : world) (s : store) :
  plan (profile s) = "PREMIUM" ->
  premium_expires_at (profile s) = None ->
  let s1 := (ensure_daily_reset w s).2 in
  is_premium_active w (profile s) = false
  /\ check_ai_quota cfg w s
     = (inr (if (daily_ai_calls (profile s1) <? FREE_DAILY_AI_CALLS cfg)%Z
             then HasQuota
             else NoQuota
                    (HTTP_402_PAYMENT_REQUIRED
                       "Daily AI limit reached. Upgrade to Premium for more calls."
                       (daily_ai_calls (profile s1)) (FREE_DAILY_AI_CALLS cfg)
                       "PREMIUM")),
        s1).
Proof.
  intros Hplan Hexp s1.
  assert (Hoff : forall p, plan p = "PREMIUM" -> premium_expires_at p = None ->
                           is_premium_active w p = false).
  { intros p Hp He. unfold is_premium_active. rewrite Hp, He. reflexivity. }
  split; [apply Hoff; assumption|].
  destruct (ensure_daily_reset_frame w s) as (Hplan1 & Hexp1 & _).
  fold s1 in Hplan1, Hexp1.
  rewrite check_ai_quota_run. fold s1.
  rewrite (Hoff (profile s1)) by congruence.
  rewrite Hplan1, Hplan. reflexivity.
Qed.

(** A premium user without an expiry date, 5 calls made today, free
    ceiling 5, premium ceiling 200: refused. *)
Lemma premium_without_expiry_witness :
  check_ai_quota Sample.cfg Sample.joy_world
    (Sample.store_of (Sample.premium_user 5 None))
  = (inr (NoQuota
            (HTTP_402_PAYMENT_REQUIRED
               "Daily AI limit reached. Upgrade to Premium for more calls."
               5 5 "PREMIUM")),
     Sample.store_of (Sample.premium_user 5 None)).
Proof.
  exact (proj2 (premium_without_expiry_is_held_to_free_ceiling
                  Sample.cfg Sample.joy_world
                  (Sample.store_of (Sample.premium_user 5 None))
                  eq_refl eq_refl)).
Defined.

End QuotaFacts.

(** ** The classifier gateway *)

Module ClassifierFacts.
Import HFClient Spec Steps.

Ltac stage_cases :=
  repeat split; intros; subst; try congruence; eauto.

(** Both [except] clauses of [analyze_emotion] log one line and return
    the neutral result. *)
Lemma handler_returns_neutral (e : exn) (s : store) :
  exists msg : string,
    match e with
    | RequestException _ =>
        emit (LogError "Hugging Face API error: " e) ;; ret neutral
    | _ =>
        emit (LogError "Unexpected error in emotion analysis: " e) ;;
        ret neutral
    end s
    = (inr neutral,
       {| profile := profile s; mood_logs := mood_logs s;
          trace := trace s ++ [LogError msg e] |}).
Proof. destruct e; eexists; reflexivity. Qed.

(** What a run of [analyze_emotion] with a credential does: one request,
    at most one log line, and a result fixed by the first stage that
    fails, if any. *)
Lemma analyze_emotion_with_token
    (cfg : settings) (w : world) (text : string) (s : store) :
  token_set (HUGGINGFACE_API_TOKEN cfg) = true ->
  exists (r : EmotionResult) (request : http_request) (log : list event),
    analyze_emotion cfg w text s
    = (inr r,
       {| profile := profile s; mood_logs := mood_logs s;
          trace := trace s ++ Post request :: log |})
    /\ req_inputs request = text
    /\ req_timeout request = 10
    /\ (log = [] \/ exists msg e, log = [LogError msg e])
    /\ (forall e, requests_post w request = inl e -> r = neutral)
    /\ (forall response,
          requests_post w request = inr response ->
          (forall e, raise_for_status response = Some e -> r = neutral)
          /\ (raise_for_status response = None ->
              (forall e, response_json response = inl e -> r = neutral)
              /\ (forall result,
                    response_json response = inr result ->
                    (forall e, read_result w result = inl e -> r = neutral)
                    /\ (forall x, read_result w result = inr x ->
                                  r = x /\ log = [])))).
Proof.
  intros Htoken. unfold analyze_emotion. rewrite Htoken. cbn [negb].
  set (request := {| req_url := _; req_inputs := text |}).
  unfold try_except, bind, emit, lift, raise, ret. cbn [profile mood_logs trace].
  assert (Happ : forall (l : list event) x y,
            ((l ++ [x]) ++ [y] = l ++ x :: [y])%list).
  { intros. rewrite <- app_assoc. reflexivity. }
  destruct (requests_post w request) as [e|response] eqn:Hpost;
    [|destruct (raise_for_status response) as [e|] eqn:Hstatus;
      [|destruct (response_json response) as [e|result] eqn:Hjson;
        [|destruct (read_result w result) as [e|x] eqn:Hread]]].
  5: { exists x, request, []. split; [reflexivity|]. stage_cases. }
  all: destruct (handler_returns_neutral e
                   {| profile := profile s; mood_logs := mood_logs s;
                      trace := trace s ++ [Post request] |}) as [msg Hh];
       cbn [profile mood_logs trace] in Hh; unfold bind, emit, ret in Hh;
       exists neutral, request, [LogError msg e];
       (split; [rewrite <- Happ; exact Hh|]); stage_cases.
Qed.

(** *** [max] with the score as key *)









(** *** From the payload to the result *)

Lemma read_result_no_entries (w : world) (payload : json) :
  emotions_of payload = None -> read_result w payload = inr neutral.
Proof.
  destruct payload as [| | | |[|first rest]|]; try reflexivity.
  destruct first; discriminate.
Qed.

Lemma read_result_entries (w : world) (payload : json) (entries : list json) :
  emotions_of payload = Some entries ->
  read_result w payload
  = let? top_emotion := py_max w score_key entries in read_top top_emotion.
Proof.
  destruct payload as [| | | |[|first rest]|]; try discriminate.
  destruct first; intros [= <-]; reflexivity.
Qed.

Lemma read_top_scored (top : json) (q : Q) :
  score_of top = Some q ->
  match label_of top with
  | Some l =>
      read_top top
      = inr {| label := PyStr.lower l; score := Py.round3 q;
               ai_unavailable := false |}
  | None => exists e, read_top top = inl e
  end.
Proof.
  unfold score_of, label_of, read_top, Py.getitem.
  destruct top as [| | | |l|d]; try discriminate.
  destruct (d !! "score") as [v|]; [|discriminate]. intros Hv.
  destruct (d !! "label") as [[| | |l| |]|]; cbn; eauto.
  unfold Py.round_ndigits3. rewrite Hv. reflexivity.
Qed.

Lemma read_top_unscored (top : json) :
  score_of top = None -> exists e, read_top top = inl e.
Proof.
  unfold score_of, read_top, Py.getitem.
  destruct top as [| | | |l|d]; cbn; eauto.
  destruct (d !! "score") as [v|]; intros Hv.
  - destruct (d !! "label") as [[| | |l| |]|]; cbn; eauto.
    unfold Py.round_ndigits3. rewrite Hv. cbn. eauto.
  - destruct (d !! "label") as [[| | |l| |]|]; cbn; eauto.
Qed.

(** *** Rounding *)

Lemma round_half_even_near (y : Q) :
  (y - (1 # 2) <= inject_Z (Py.round_half_even y))%Q
  /\ (inject_Z (Py.round_half_even y) <= y + (1 # 2))%Q.
Proof.
  unfold Py.round_half_even.
  pose proof (Qfloor_le y) as Hlo. pose proof (Qlt_floor y) as Hhi.
  rewrite inject_Z_plus in Hhi. change (inject_Z 1) with 1%Q in Hhi.
  destruct (y - inject_Z (Qfloor y) ?= 1 # 2)%Q eqn:C.
  - apply Qeq_alt in C.
    destruct (Z.even (Qfloor y));
      [|rewrite inject_Z_plus; change (inject_Z 1) with 1%Q]; lra.
  - apply Qlt_alt in C. lra.
  - apply Qgt_alt in C. rewrite inject_Z_plus.
    change (inject_Z 1) with 1%Q. lra.
Qed.


(** Every run of [analyze_emotion] returns a result and adds only
    events to the store, none of them a write to the user's row. *)
Lemma analyze_emotion_returns
    (cfg : settings) (w : world) (text : string) (s : store) :
  exists (r : EmotionResult) (events : list event),
    analyze_emotion cfg w text s
    = (inr r,
       {| profile := profile s; mood_logs := mood_logs s;
          trace := trace s ++ events |})
    /\ no_save events
    /\ (token_set (HUGGINGFACE_API_TOKEN cfg) = false ->
        r = neutral /\ no_request events).
Proof.
  destruct (token_set (HUGGINGFACE_API_TOKEN cfg)) eqn:Htoken.
  - destruct (analyze_emotion_with_token cfg w text s Htoken)
      as (r & request & log & Hrun & _ & _ & Hlog & _).
    exists r, (Post request :: log). split; [exact Hrun|].
    split; [|discriminate].
    constructor; [discriminate|].
    destruct Hlog as [->|(msg & e & ->)]; repeat constructor; discriminate.
  - exists neutral, [LogWarning "Hugging Face API token not configured"].
    split; [unfold analyze_emotion; rewrite Htoken; reflexivity|].
    split; [repeat constructor; discriminate|].
    intros _. split; [reflexivity|repeat constructor; discriminate].
Qed.

(** *** The two claims about the gateway *)

(** C5. [analyze_emotion] never raises: every run returns a result and
    leaves the user's row and the mood logs alone. Without a credential
    the result is the neutral one ([label] neutral, [score] 0.5,
    unavailable flag set) and the only event is the warning, so no
    request is sent. With a credential exactly one request is sent, and
    whenever the transport raises (connection error, timeout), the status
    check raises, decoding the body raises, or reading the decoded
    payload raises, the result is that same neutral one. *)
Theorem analyze_emotion_never_raises_and_degrades_to_neutral
    (cfg : settings) (w : world) (text : string) (s : store) :
  exists (r : EmotionResult) (events : list event),
    analyze_emotion cfg w text s
    = (inr r,
       {| profile := profile s; mood_logs := mood_logs s;
          trace := trace s ++ events |})
    /\ neutral = {| label := "neutral"; score := 1 # 2; ai_unavailable := true |}
    /\ (token_set (HUGGINGFACE_API_TOKEN cfg) = false ->
        r = neutral
        /\ events = [LogWarning "Hugging Face API token not configured"])
    /\ (token_set (HUGGINGFACE_API_TOKEN cfg) = true ->
        exists (request : http_request) (log : list event),
          events = Post request :: log
          /\ req_inputs request = text
          /\ (log = [] \/ exists msg e, log = [LogError msg e])
          /\ (forall e, requests_post w request = inl e -> r = neutral)
          /\ (forall response e,
                requests_post w request = inr response ->
                raise_for_status response = Some e -> r = neutral)
          /\ (forall response e,
                requests_post w request = inr response ->
                raise_for_status response = None ->
                response_json response = inl e -> r = neutral)
          /\ (forall response result e,
                requests_post w request = inr response ->
                raise_for_status response = None ->
                response_json response = inr result ->
                read_result w result = inl e -> r = neutral)).
Proof.
  destruct (token_set (HUGGINGFACE_API_TOKEN cfg)) eqn:Htoken.
  - destruct (analyze_emotion_with_token cfg w text s Htoken)
      as (r & request & log & Hrun & Hin & _ & Hlog & Hpost & Hresp).
    exists r, (Post request :: log).
    split; [exact Hrun|]. split; [reflexivity|]. split; [discriminate|].
    intros _. exists request, log.
    split; [reflexivity|]. split; [exact Hin|]. split; [exact Hlog|].
    split; [exact Hpost|].
    split; [|split].
    + intros response e Hr Hs. exact (proj1 (Hresp response Hr) e Hs).
    + intros response e Hr Hs Hj.
      exact (proj1 (proj2 (Hresp response Hr) Hs) e Hj).
    + intros response result e Hr Hs Hj Hread.
      exact (proj1 (proj2 (proj2 (Hresp response Hr) Hs) result Hj) e Hread).
  - exists neutral, [LogWarning "Hugging Face API token not configured"].
    split.
    + unfold analyze_emotion. rewrite Htoken. reflexivity.
    + split; [reflexivity|]. split; [auto|discriminate].
Qed.

(** *** Lower case *)




(** *** The first maximum is one entry only *)




End ClassifierFacts.

(** ** The analysis view *)

Module ViewFacts.
Import HFClient SpotifyRecommendationService Views Spec Steps.

(** The view stops at the quota check when the count has reached the
    ceiling. *)
Lemma analyze_emotion_no_quota
    (cfg : settings) (w : world) (data : request_data) (s : store) :
  let s1 := (ensure_daily_reset w s).2 in
  (daily_ai_calls (profile s1) <? max_calls cfg w (profile s1))%Z = false ->
  Views.analyze_emotion cfg w data s
  = (inr (quota_error cfg w (profile s1)), s1).
Proof.
  intros s1 Hfull. unfold Views.analyze_emotion, bind.
  rewrite QuotaFacts.check_ai_quota_run. fold s1. unfold max_calls in Hfull.
  rewrite Hfull. reflexivity.
Qed.

Lemma truthy_empty (t : string) : PyStr.truthy t = false <-> t = "".
Proof. destruct t; cbn; split; intros; congruence. Qed.

(** The view stops at the validation when the trimmed text is empty or
    too long. *)
Lemma analyze_emotion_bad_text
    (cfg : settings) (w : world) (data : request_data) (s : store) :
  let s1 := (ensure_daily_reset w s).2 in
  (daily_ai_calls (profile s1) <? max_calls cfg w (profile s1))%Z = true ->
  text_of data = "" \/ (1000 < PyStr.len (text_of data))%Z ->
  exists detail : string,
    Views.analyze_emotion cfg w data s
    = (inr (HTTP_400_BAD_REQUEST detail), s1).
Proof.
  intros s1 Hroom Hbad. unfold Views.analyze_emotion, bind.
  rewrite QuotaFacts.check_ai_quota_run. fold s1. unfold max_calls in Hroom.
  rewrite Hroom. fold (text_of data).
  destruct (PyStr.truthy (text_of data)) eqn:Ht; cbn [negb].
  - destruct Hbad as [Hempty|Hlong].
    + apply truthy_empty in Hempty. congruence.
    + apply Z.gtb_lt in Hlong. rewrite Hlong. eexists. reflexivity.
  - eexists. reflexivity.
Qed.

(** An accepted analysis: the classifier runs on the trimmed text, the
    count goes up by one, and then the row is created when asked for. *)
Lemma analyze_emotion_accepted
    (cfg : settings) (w : world) (data : request_data) (s : store) :
  let s1 := (ensure_daily_reset w s).2 in
  (daily_ai_calls (profile s1) <? max_calls cfg w (profile s1))%Z = true ->
  text_of data <> "" ->
  (PyStr.len (text_of data) <= 1000)%Z ->
  exists (r : EmotionResult) (events : list event),
    HFClient.analyze_emotion cfg w (text_of data) s1
    = (inr r,
       {| profile := profile s1; mood_logs := mood_logs s1;
          trace := trace s1 ++ events |})
    /\ let s2 :=
         incremented {| profile := profile s1; mood_logs := mood_logs s1;
                        trace := trace s1 ++ events |} in
       let music :=
         default calm_playlists (mood_playlists !! playlist_key (label r)) in
       Views.analyze_emotion cfg w data s
       = if persist data then
           match insert_error w (mood_log_row w data r) with
           | None =>
               (inr (HTTP_200_OK (response_data r music (Some (uuid4 w)))),
                {| profile := profile s2;
                   mood_logs := mood_logs s2 ++ [mood_log_row w data r];
                   trace := trace s2 |})
           | Some e =>
               (inr (HTTP_500_INTERNAL_SERVER_ERROR
                       "An error occurred during analysis. Please try again."
                       true),
                {| profile := profile s2; mood_logs := mood_logs s2;
                   trace := trace s2 ++ [LogError "Error in emotion analysis: " e] |})
           end
         else (inr (HTTP_200_OK (response_data r music None)), s2).
Proof.
  intros s1 Hroom Hne Hlen.
  destruct (ClassifierFacts.analyze_emotion_returns cfg w (text_of data) s1)
    as (r & events & Hrun & _).
  exists r, events. split; [exact Hrun|].
  unfold Views.analyze_emotion, bind at 1.
  rewrite QuotaFacts.check_ai_quota_run. fold s1. unfold max_calls in Hroom.
  rewrite Hroom. fold (text_of data).
  destruct (PyStr.truthy (text_of data)) eqn:Ht;
    [|apply truthy_empty in Ht; contradiction].
  cbn [negb].
  destruct (PyStr.len (text_of data) >? 1000)%Z eqn:Hgt;
    [apply Z.gtb_lt in Hgt; lia|].
  unfold try_except, bind. rewrite Hrun.
  rewrite RecommenderFacts.get_recommendations_eq.
  unfold lift, ret, increment_ai_calls, bind, get_profile, set_profile, emit.
  cbn [profile mood_logs trace].
  destruct (persist data); [|reflexivity].
  unfold objects_create, bind, add_mood_log, raise, ret.
  fold (mood_log_row w data r).
  destruct (insert_error w (mood_log_row w data r)); reflexivity.
Qed.

(** What the daily reset, the first step of every request, leaves
    behind: no request to the service, the mood logs untouched, and a
    count that is 0 after a reset and the old one otherwise. *)
Lemma daily_reset_effects (w : world) (s : store) :
  let s1 := (ensure_daily_reset w s).2 in
  mood_logs s1 = mood_logs s
  /\ daily_ai_calls (profile s1)
     = (if reset_test (today w) (profile s) then 0
        else daily_ai_calls (profile s))
  /\ exists events, trace s1 = trace s ++ events /\ no_request events.
Proof.
  cbv zeta. rewrite QuotaFacts.ensure_daily_reset_run. cbn [snd].
  destruct (reset_test (today w) (profile s)); cbn.
  - repeat split. eexists. split; [reflexivity|].
    repeat constructor. discriminate.
  - repeat split. exists []. split; [symmetry; apply app_nil_r|constructor].
Qed.

(** The quota check comes before the validation of the text: a user
    whose quota is used up and who sends an empty text gets the quota
    refusal. Free ceiling 5, 5 calls made today, text [""]. *)
Lemma empty_text_with_exhausted_quota_is_refused_for_quota :
  let data := {| text := Some ""; user_mood := None; persist := false |} in
  let s := Sample.store_of (Sample.user 5 (Some (today Sample.joy_world))) in
  text_of data = ""
  /\ Views.analyze_emotion Sample.cfg Sample.joy_world data s
     = (inr (HTTP_402_PAYMENT_REQUIRED
               "Daily AI limit reached. Upgrade to Premium for more calls."
               5 5 "FREE"), s)
  /\ ~ exists detail s',
         Views.analyze_emotion Sample.cfg Sample.joy_world data s
         = (inr (HTTP_400_BAD_REQUEST detail), s').
Proof.
  cbv zeta. split; [reflexivity|].
  assert (E : Views.analyze_emotion Sample.cfg Sample.joy_world
                {| text := Some ""; user_mood := None; persist := false |}
                (Sample.store_of (Sample.user 5 (Some (today Sample.joy_world))))
              = (inr (HTTP_402_PAYMENT_REQUIRED
                        "Daily AI limit reached. Upgrade to Premium for more calls."
                        5 5 "FREE"),
                 Sample.store_of (Sample.user 5 (Some (today Sample.joy_world)))))
    by reflexivity.
  split; [exact E|].
  intros (detail & s' & H). rewrite E in H. discriminate.
Qed.

(** C1. When the count after the daily reset has reached the ceiling,
    the view answers 402 with that count, the ceiling and the plan, and
    stops right after the reset: no request to the classifier, no
    increment. A request that gets past the quota check, in the order of
    the steps, and whose text is empty after trimming or longer than 1000
    characters is answered 400, and the view stops in the same way: the
    count stays the one the reset left. *)
Theorem quota_refusal_then_text_validation
    (cfg : settings) (w : world) (data : request_data) (s : store) :
  let s1 := (ensure_daily_reset w s).2 in
  let calls := daily_ai_calls (profile s1) in
  let ceiling := max_calls cfg w (profile s1) in
  ((ceiling <= calls)%Z ->
   Views.analyze_emotion cfg w data s
   = (inr (HTTP_402_PAYMENT_REQUIRED
             "Daily AI limit reached. Upgrade to Premium for more calls."
             calls ceiling (plan (profile s1))), s1))
  /\ ((calls < ceiling)%Z ->
      text_of data = "" \/ (1000 < PyStr.len (text_of data))%Z ->
      exists detail : string,
        Views.analyze_emotion cfg w data s
        = (inr (HTTP_400_BAD_REQUEST detail), s1))
  /\ mood_logs s1 = mood_logs s
  /\ calls = (if reset_test (today w) (profile s) then 0
              else daily_ai_calls (profile s))
  /\ exists events, trace s1 = trace s ++ events /\ no_request events.
Proof.
  intros s1 calls ceiling. split; [|split].
  - intros Hfull. apply analyze_emotion_no_quota.
    apply Z.ltb_ge. exact Hfull.
  - intros Hroom Hbad. apply analyze_emotion_bad_text; [|exact Hbad].
    apply Z.ltb_lt. exact Hroom.
  - apply daily_reset_effects.
Qed.

(** C2. An accepted analysis, one whose quota check passes and whose
    trimmed text is neither empty nor longer than 1000 characters, always
    returns a response and raises the count left by the daily reset by
    exactly one, through a single write of the count that comes after the
    classifier's events, whatever the classifier returned; without a
    credential the classifier's result is the neutral, unavailable one
    and the count still goes up. The count then does not exceed the
    ceiling the quota check used. *)
Theorem accepted_analysis_increments_once_within_ceiling
    (cfg : settings) (w : world) (data : request_data) (s : store) :
  let s1 := (ensure_daily_reset w s).2 in
  let out := Views.analyze_emotion cfg w data s in
  (daily_ai_calls (profile s1) < max_calls cfg w (profile s1))%Z ->
  text_of data <> "" ->
  (PyStr.len (text_of data) <= 1000)%Z ->
  (exists response, out.1 = inr response)
  /\ daily_ai_calls (profile out.2) = (daily_ai_calls (profile s1) + 1)%Z
  /\ (daily_ai_calls (profile out.2) <= max_calls cfg w (profile s1))%Z
  /\ max_calls cfg w (profile out.2) = max_calls cfg w (profile s1)
  /\ (exists (r : EmotionResult) (before after : list event),
        trace out.2 = trace s1 ++ before ++ Save ["daily_ai_calls"] :: after
        /\ no_save before /\ no_save after
        /\ (HFClient.analyze_emotion cfg w (text_of data) s1).1 = inr r
        /\ (token_set (HUGGINGFACE_API_TOKEN cfg) = false ->
            r = neutral /\ no_request before)).
Proof.
  intros s1 out Hroom Hne Hlen.
  assert (Hroom' : (daily_ai_calls (profile s1) <? max_calls cfg w (profile s1))%Z = true)
    by (apply Z.ltb_lt; exact Hroom).
  destruct (analyze_emotion_accepted cfg w data s Hroom' Hne Hlen)
    as (r & events & Hrun & Hout).
  fold s1 in Hrun. cbv zeta in Hout. fold s1 in Hout. fold out in Hout.
  destruct (ClassifierFacts.analyze_emotion_returns cfg w (text_of data) s1)
    as (r' & events' & Hrun' & Hnosave & Hdegraded).
  rewrite Hrun in Hrun'. injection Hrun' as <- Hev.
  apply app_inv_head in Hev. subst events'.
  assert (Hcases :
    out.2 = incremented {| profile := profile s1; mood_logs := mood_logs s1;
                           trace := trace s1 ++ events |}
    \/ (exists row, out.2
          = {| profile := profile (incremented {| profile := profile s1; mood_logs := mood_logs s1; trace := trace s1 ++ events |});
               mood_logs := mood_logs s1 ++ [row];
               trace := (trace s1 ++ events) ++ [Save ["daily_ai_calls"]] |})
    \/ (exists e, out.2
          = {| profile := profile (incremented {| profile := profile s1; mood_logs := mood_logs s1; trace := trace s1 ++ events |});
               mood_logs := mood_logs s1;
               trace := ((trace s1 ++ events) ++ [Save ["daily_ai_calls"]])
                        ++ [LogError "Error in emotion analysis: " e] |})).
  { rewrite Hout. destruct (persist data); [|left; reflexivity].
    destruct (insert_error w (mood_log_row w data r)) as [e|].
    - right. right. exists e. reflexivity.
    - right. left. eexists. reflexivity. }
  assert (Hresp : exists response, out.1 = inr response).
  { rewrite Hout. destruct (persist data); [|eexists; reflexivity].
    destruct (insert_error w (mood_log_row w data r)); eexists; reflexivity. }
  assert (Hprofile : profile out.2
                     = with_calls (profile s1) (daily_ai_calls (profile s1) + 1)
                         (last_ai_calls_reset (profile s1))).
  { destruct Hcases as [->|[(row & ->)|(e & ->)]]; reflexivity. }
  split; [exact Hresp|]. rewrite Hprofile. cbn [with_calls daily_ai_calls].
  split; [reflexivity|]. split; [lia|]. split; [reflexivity|].
  exists r.
  destruct Hcases as [->|[(row & ->)|(e & ->)]]; cbn [trace incremented].
  - exists events, []. rewrite <- app_assoc.
    repeat (split; [first [reflexivity|assumption|constructor]|]).
    split; [rewrite Hrun; reflexivity|exact Hdegraded].
  - exists events, []. rewrite <- app_assoc.
    repeat (split; [first [reflexivity|assumption|constructor]|]).
    split; [rewrite Hrun; reflexivity|exact Hdegraded].
  - exists events, [LogError "Error in emotion analysis: " e].
    rewrite <- !app_assoc.
    split; [reflexivity|]. split; [assumption|].
    split; [repeat constructor; discriminate|].
    split; [rewrite Hrun; reflexivity|exact Hdegraded].
Qed.

(** No credential, a fresh user, the text of the repository's test: the
    call is accepted, degraded, and counted. *)
Lemma accepted_analysis_without_token_witness :
  daily_ai_calls
    (profile
       (Views.analyze_emotion Sample.cfg_no_token Sample.joy_world
          {| text := Some "I'm feeling amazing today!";
             user_mood := None; persist := false |}
          (Sample.store_of (Sample.user 0 None))).2)
  = (daily_ai_calls
       (profile
          (ensure_daily_reset Sample.joy_world
             (Sample.store_of (Sample.user 0 None))).2) + 1)%Z.
Proof.
  refine (proj1 (proj2
    (accepted_analysis_increments_once_within_ceiling
       Sample.cfg_no_token Sample.joy_world
       {| text := Some "I'm feeling amazing today!";
          user_mood := None; persist := false |}
       (Sample.store_of (Sample.user 0 None)) _ _ _))).
  - reflexivity.
  - discriminate.
  - vm_compute. discriminate.
Defined.

(** [int] drops the fraction. *)
Lemma int_truncates (q : Q) : Py.int q = truncate q.
Proof.
  unfold Py.int, truncate, Qle_bool, Qceiling, Qfloor.
  destruct q as [n d]. cbn [Qnum Qden Qopp].
  rewrite Z.mul_1_r. change (0 * Z.pos d)%Z with 0%Z.
  destruct (Z.leb_spec 0 n) as [Hn|Hn].
  - apply Z.quot_div_nonneg; lia.
  - rewrite <- (Z.opp_involutive n) at 1.
    rewrite Z.quot_opp_l by lia.
    rewrite Z.quot_div_nonneg by lia. reflexivity.
Qed.

(** Cutting at a length the string does not exceed keeps it whole. *)
Lemma take_short (s : string) :
  forall n : nat, (String.length s <= n)%nat -> PyStr.take n s = s.
Proof.
  unfold PyStr.take.
  induction s as [|c r IH]; intros n Hn.
  - destruct n; reflexivity.
  - destruct n; [cbn in Hn; lia|].
    cbn. rewrite IH; [reflexivity|cbn in Hn; lia].
Qed.

(** C7, as worded, fails on the intensity. The service reports sadness
    at 0.03 and joy at 0.97; the stored row has intensity 9, where
    [clamp(round(0.97 * 10), 1, 10)] is 10. *)
Lemma intensity_is_not_rounded :
  exists row : MoodLog,
    mood_logs
      (Views.analyze_emotion Sample.cfg Sample.confident_world
         {| text := Some "what a day"; user_mood := None; persist := true |}
         (Sample.store_of (Sample.user 0 None))).2
    = [row]
    /\ detected_emotion row = "joy"
    /\ detected_confidence row = 97 # 100
    /\ intensity row = 9%Z
    /\ intensity_by_rounding (detected_confidence row) = 10%Z.
Proof. eexists. vm_compute. repeat split; reflexivity. Qed.

(** C7, amended. An accepted analysis with the persist flag set, whose
    score times ten is a finite number so that [int(score * 10)] returns,
    adds, when the database takes the row, exactly one mood log, whose
    id is returned in the response. Its mood is the caller's mood when
    one was sent and is not empty, and the classifier's label otherwise;
    its intensity is the integer part of ten times the score (the
    fraction is dropped, not rounded), clamped to 1..10; its note is the
    trimmed text, which cutting at 1000 characters leaves whole; detected
    emotion, confidence and advice are the classifier's label and score
    and the advice generated for that label. *)
Theorem persisted_mood_log_fields
    (cfg : settings) (w : world) (data : request_data) (s : store) :
  let s1 := (ensure_daily_reset w s).2 in
  let out := Views.analyze_emotion cfg w data s in
  (daily_ai_calls (profile s1) < max_calls cfg w (profile s1))%Z ->
  text_of data <> "" ->
  (PyStr.len (text_of data) <= 1000)%Z ->
  persist data = true ->
  exists r : EmotionResult,
    (HFClient.analyze_emotion cfg w (text_of data) s1).1 = inr r
    /\ (Limits.product_fits (score r) ->
        exists row : MoodLog,
          (insert_error w row = None ->
           mood_logs out.2 = mood_logs s ++ [row]
           /\ exists body, out.1 = inr (HTTP_200_OK body)
                           /\ mood_log_id body = Some (id row))
          /\ (forall e, insert_error w row = Some e ->
                        mood_logs out.2 = mood_logs s)
          /\ mood row
             = match user_mood data with
               | Some m => if String.eqb m "" then label r else m
               | None => label r
               end
          /\ intensity row = Z.min 10 (Z.max 1 (truncate (score r * 10)))
          /\ (1 <= intensity row <= 10)%Z
          /\ note row = PyStr.take 1000 (text_of data)
          /\ note row = text_of data
          /\ detected_emotion row = label r
          /\ detected_confidence row = score r
          /\ advice row = generate_advice (label r)).
Proof.
  intros s1 out Hroom Hne Hlen Hpersist.
  assert (Hroom' : (daily_ai_calls (profile s1) <? max_calls cfg w (profile s1))%Z = true)
    by (apply Z.ltb_lt; exact Hroom).
  destruct (analyze_emotion_accepted cfg w data s Hroom' Hne Hlen)
    as (r & events & Hrun & Hout).
  fold s1 in Hrun. cbv zeta in Hout. fold s1 in Hout. fold out in Hout.
  rewrite Hpersist in Hout.
  destruct (daily_reset_effects w s) as (Hlogs & _). fold s1 in Hlogs.
  exists r. split; [rewrite Hrun; reflexivity|].
  intros _. exists (mood_log_row w data r).
  split; [|split].
  - intros Hok. rewrite Hok in Hout. rewrite Hout. cbn. rewrite Hlogs.
    split; [reflexivity|]. eexists. split; reflexivity.
  - intros e He. rewrite He in Hout. rewrite Hout. cbn. exact Hlogs.
  - cbn [mood_log_row mood intensity note detected_emotion
         detected_confidence advice].
    split.
    { unfold mood_or. destruct (user_mood data) as [[|c m]|]; reflexivity. }
    split; [unfold intensity_of; rewrite int_truncates; reflexivity|].
    split; [unfold intensity_of; lia|].
    split; [reflexivity|].
    split; [|repeat split].
    apply take_short. unfold PyStr.len in Hlen. lia.
Qed.

(** The request of the repository's test: persist set, the service
    answering joy at 0.95, whose tenfold 9.5 is finite: one row, of
    intensity 9. *)
Lemma persisted_mood_log_witness :
  exists row : MoodLog,
    mood_logs
      (Views.analyze_emotion Sample.cfg Sample.joy_world
         {| text := Some "I'm feeling amazing today!";
            user_mood := None; persist := true |}
         (Sample.store_of (Sample.user 0 None))).2
    = [row]
    /\ intensity row = 9%Z
    /\ note row = "I'm feeling amazing today!".
Proof.
  destruct (persisted_mood_log_fields Sample.cfg Sample.joy_world
              {| text := Some "I'm feeling amazing today!";
                 user_mood := None; persist := true |}
              (Sample.store_of (Sample.user 0 None)))
    as (r & Hr & Hrow).
  - reflexivity.
  - discriminate.
  - vm_compute. discriminate.
  - reflexivity.
  - vm_compute in Hr. injection Hr as <-.
    destruct Hrow as (row & Hstored & _ & _ & Hi & _ & _ & Hn & _).
    { vm_compute. reflexivity. }
    exists row. split; [apply Hstored; reflexivity|].
    split; [rewrite Hi; reflexivity|exact Hn].
Defined.

End ViewFacts.

(** ** The remaining calls of a profile *)

Module UsersFacts.
Import Views Spec Steps Users.

Lemma remaining_ai_calls_max (cfg : settings) (w : world) (p : UserProfile) :
  remaining_ai_calls cfg w p = Z.max 0 (max_calls cfg w p - daily_ai_calls p).
Proof. reflexivity. Qed.

(** X1. The remaining calls shown for a profile are never negative, and
    the quota check lets a request through exactly when, after the daily
    reset, some calls remain. *)
Theorem has_quota_iff_calls_remain
    (cfg : settings) (w : world) (s : store) :
  let s1 := (ensure_daily_reset w s).2 in
  (0 <= remaining_ai_calls cfg w (profile s1))%Z
  /\ ((check_ai_quota cfg w s).1 = inr HasQuota
      <-> (0 < remaining_ai_calls cfg w (profile s1))%Z).
Proof.
  intros s1. rewrite remaining_ai_calls_max. split; [lia|].
  rewrite QuotaFacts.check_ai_quota_run. fold s1. fold (max_calls cfg w (profile s1)).
  cbn [fst].
  destruct (Z.ltb_spec (daily_ai_calls (profile s1)) (max_calls cfg w (profile s1)));
    split; intros H'; try reflexivity; try discriminate; lia.
Qed.

(** X2. An accepted analysis takes exactly one call off the remaining
    calls shown after the daily reset. *)
Theorem accepted_analysis_uses_one_remaining_call
    (cfg : settings) (w : world) (data : request_data) (s : store) :
  let s1 := (ensure_daily_reset w s).2 in
  let out := Views.analyze_emotion cfg w data s in
  (0 < remaining_ai_calls cfg w (profile s1))%Z ->
  text_of data <> "" ->
  (PyStr.len (text_of data) <= 1000)%Z ->
  remaining_ai_calls cfg w (profile out.2)
  = (remaining_ai_calls cfg w (profile s1) - 1)%Z.
Proof.
  intros s1 out Hrem Hne Hlen.
  rewrite remaining_ai_calls_max in Hrem.
  assert (Hroom : (daily_ai_calls (profile s1) <? max_calls cfg w (profile s1))%Z = true)
    by (apply Z.ltb_lt; lia).
  destruct (ViewFacts.analyze_emotion_accepted cfg w data s Hroom Hne Hlen)
    as (r & events & _ & Hout).
  cbv zeta in Hout. fold s1 in Hout. fold out in Hout.
  assert (Hprofile : profile out.2
                     = with_calls (profile s1) (daily_ai_calls (profile s1) + 1)
                         (last_ai_calls_reset (profile s1))).
  { rewrite Hout. destruct (persist data); [|reflexivity].
    destruct (insert_error w (mood_log_row w data r)); reflexivity. }
  rewrite !remaining_ai_calls_max, Hprofile.
  assert (Hmax : max_calls cfg w
                   (with_calls (profile s1) (daily_ai_calls (profile s1) + 1)
                      (last_ai_calls_reset (profile s1)))
                 = max_calls cfg w (profile s1)) by reflexivity.
  rewrite Hmax. cbn [with_calls daily_ai_calls]. apply Z.ltb_lt in Hroom. lia.
Qed.

(** A fresh free user with ceiling 5 has 5 calls left before and 4 after
    an accepted analysis. *)
Lemma accepted_analysis_uses_one_remaining_call_witness :
  remaining_ai_calls Sample.cfg Sample.joy_world
    (profile
       (Views.analyze_emotion Sample.cfg Sample.joy_world
          {| text := Some "I'm feeling amazing today!";
             user_mood := None; persist := false |}
          (Sample.store_of create_user_profile)).2)
  = (remaining_ai_calls Sample.cfg Sample.joy_world
       (profile
          (ensure_daily_reset Sample.joy_world
             (Sample.store_of create_user_profile)).2) - 1)%Z.
Proof.
  apply (accepted_analysis_uses_one_remaining_call
           Sample.cfg Sample.joy_world
           {| text := Some "I'm feeling amazing today!";
              user_mood := None; persist := false |}
           (Sample.store_of create_user_profile)).
  - reflexivity.
  - discriminate.
  - vm_compute. discriminate.
Defined.

End UsersFacts.

(** ** The recommendation endpoint *)

Module MusicViewFacts.
Import SpotifyRecommendationService Spec MusicView.

(** X3. The recommendation endpoint answers 400 exactly when the mood
    parameter is missing or empty; otherwise it answers 200, echoing the
    mood as it was sent and carrying two playlists, the calm ones when
    the mood is not recognised. It never answers 500, and it leaves the
    store as it was: no quota is used, nothing is logged. *)
Theorem music_recommendations_answers (mood : option string) (s : store) :
  (music_recommendations mood s).2 = s
  /\ match mood with
     | None | Some "" =>
         (music_recommendations mood s).1
         = inr (HTTP_400_BAD_REQUEST "Mood parameter is required")
     | Some m =>
         exists playlists,
           (music_recommendations mood s).1 = inr (HTTP_200_OK m playlists)
           /\ get_recommendations m = inr playlists
           /\ length playlists = 2%nat
           /\ (mood_playlists !! playlist_key m = None ->
               playlists = calm_playlists)
     end.
Proof.
  destruct mood as [[|c m]|]; try (split; reflexivity).
  assert (E : music_recommendations (Some (String c m)) s
              = (inr (HTTP_200_OK (String c m)
                        (default calm_playlists
                           (mood_playlists !! playlist_key (String c m)))), s)).
  { unfold music_recommendations, try_except, bind, lift.
    change (default "" (Some (String c m))) with (String c m).
    rewrite RecommenderFacts.get_recommendations_eq. reflexivity. }
  rewrite E. split; [reflexivity|].
  eexists. split; [reflexivity|].
  split; [apply RecommenderFacts.get_recommendations_eq|].
  destruct (mood_playlists !! playlist_key (String c m)) as [l|] eqn:Hk.
  - split; [exact (RecommenderFacts.buckets_have_two _ _ Hk)|discriminate].
  - split; reflexivity.
Qed.

End MusicViewFacts.

(** ** More about the analysis view *)

Module AnalysisFacts.
Import HFClient SpotifyRecommendationService Views Spec Steps.

(** The three ways a request can end: refused for quota, refused for
    its text, or accepted. *)
Lemma analyze_emotion_outcomes
    (cfg : settings) (w : world) (data : request_data) (s : store) :
  let s1 := (ensure_daily_reset w s).2 in
  let out := Views.analyze_emotion cfg w data s in
  out = (inr (quota_error cfg w (profile s1)), s1)
  \/ (exists detail, out = (inr (HTTP_400_BAD_REQUEST detail), s1))
  \/ ((daily_ai_calls (profile s1) <? max_calls cfg w (profile s1))%Z = true
      /\ text_of data <> ""
      /\ (PyStr.len (text_of data) <= 1000)%Z).
Proof.
  intros s1 out.
  destruct (daily_ai_calls (profile s1) <? max_calls cfg w (profile s1))%Z eqn:Hroom.
  - destruct (string_dec (text_of data) "") as [Hempty|Hne].
    + right. left. apply ViewFacts.analyze_emotion_bad_text; auto.
    + destruct (Z_le_gt_dec (PyStr.len (text_of data)) 1000) as [Hlen|Hlong].
      * right. right. auto.
      * right. left. apply ViewFacts.analyze_emotion_bad_text; [exact Hroom|].
        right. lia.
  - left. apply ViewFacts.analyze_emotion_no_quota. exact Hroom.
Qed.

(** What an accepted request leaves behind, in one shape for its three
    endings: no row asked for, row stored, row refused by the database. *)
Lemma accepted_shape
    (cfg : settings) (w : world) (data : request_data) (s : store) :
  let s1 := (ensure_daily_reset w s).2 in
  let out := Views.analyze_emotion cfg w data s in
  (daily_ai_calls (profile s1) <? max_calls cfg w (profile s1))%Z = true ->
  text_of data <> "" ->
  (PyStr.len (text_of data) <= 1000)%Z ->
  exists (r : EmotionResult) (events : list event)
         (added : list MoodLog) (tail : list event) (response : Response),
    HFClient.analyze_emotion cfg w (text_of data) s1
    = (inr r,
       {| profile := profile s1; mood_logs := mood_logs s1;
          trace := trace s1 ++ events |})
    /\ out
       = (inr response,
          {| profile :=
               with_calls (profile s1) (daily_ai_calls (profile s1) + 1)
                 (last_ai_calls_reset (profile s1));
             mood_logs := mood_logs s1 ++ added;
             trace := trace s1 ++ events ++ Save ["daily_ai_calls"] :: tail |})
    /\ let music :=
         default calm_playlists (mood_playlists !! playlist_key (label r)) in
       let row := mood_log_row w data r in
       (persist data = false /\ added = [] /\ tail = []
        /\ response = HTTP_200_OK (response_data r music None))
       \/ (persist data = true /\ insert_error w row = None
           /\ added = [row] /\ tail = []
           /\ response = HTTP_200_OK (response_data r music (Some (uuid4 w))))
       \/ (persist data = true
           /\ exists e, insert_error w row = Some e
              /\ added = [] /\ tail = [LogError "Error in emotion analysis: " e]
              /\ response
                 = HTTP_500_INTERNAL_SERVER_ERROR
                     "An error occurred during analysis. Please try again."
                     true).
Proof.
  intros s1 out Hroom Hne Hlen.
  destruct (ViewFacts.analyze_emotion_accepted cfg w data s Hroom Hne Hlen)
    as (r & events & Hrun & Hout).
  fold s1 in Hrun. cbv zeta in Hout. fold s1 in Hout. fold out in Hout.
  exists r, events.
  destruct (persist data) eqn:Hpersist.
  - destruct (insert_error w (mood_log_row w data r)) as [e|] eqn:Hins.
    + exists [], [LogError "Error in emotion analysis: " e]. eexists.
      split; [exact Hrun|]. split.
      * rewrite Hout. unfold incremented. cbn [profile mood_logs trace]. rewrite List.app_nil_r.
        repeat rewrite <- List.app_assoc. reflexivity.
      * right. right. split; [reflexivity|]. exists e. auto.
    + exists [mood_log_row w data r], []. eexists.
      split; [exact Hrun|]. split.
      * rewrite Hout. unfold incremented. cbn [profile mood_logs trace]. repeat rewrite <- List.app_assoc. reflexivity.
      * right. left. auto.
  - exists [], []. eexists.
    split; [exact Hrun|]. split.
    + rewrite Hout. unfold incremented. cbn [profile mood_logs trace]. rewrite List.app_nil_r.
        repeat rewrite <- List.app_assoc. reflexivity.
    + left. auto.
Qed.

Lemma validate_note_short (t : string) :
  (PyStr.len t <= 1000)%Z ->
  MoodSerializers.validate_note (Some t) = inr (Some t).
Proof.
  intros Hlen. unfold MoodSerializers.validate_note.
  destruct (PyStr.len t >? 1000)%Z eqn:Hgt; [apply Z.gtb_lt in Hgt; lia|].
  rewrite andb_false_r. reflexivity.
Qed.

(** X4. The two ways of writing a mood log agree on the note: if every
    stored note passes the serializer's [validate_note], so does every
    note stored after a run of the analysis view. *)
Theorem analysis_notes_pass_validate_note
    (cfg : settings) (w : world) (data : request_data) (s : store) :
  Forall (fun m => MoodSerializers.validate_note (Some (note m))
                   = inr (Some (note m))) (mood_logs s) ->
  Forall (fun m => MoodSerializers.validate_note (Some (note m))
                   = inr (Some (note m)))
    (mood_logs (Views.analyze_emotion cfg w data s).2).
Proof.
  intros Hold.
  destruct (ViewFacts.daily_reset_effects w s) as (Hlogs & _).
  destruct (analyze_emotion_outcomes cfg w data s)
    as [Hout|[(detail & Hout)|(Hroom & Hne & Hlen)]].
  - rewrite Hout. cbn [snd]. rewrite Hlogs. exact Hold.
  - rewrite Hout. cbn [snd]. rewrite Hlogs. exact Hold.
  - destruct (accepted_shape cfg w data s Hroom Hne Hlen)
      as (r & events & added & tail & response & _ & Hout & Hcases).
    rewrite Hout. cbn [snd mood_logs]. rewrite Hlogs.
    apply Forall_app. split; [exact Hold|].
    cbv zeta in Hcases.
    destruct Hcases as [(_ & -> & _)|[(_ & _ & -> & _)|(_ & e & _ & -> & _)]];
      try constructor; [|constructor].
    cbn [mood_log_row note]. rewrite ViewFacts.take_short.
    + apply validate_note_short. exact Hlen.
    + unfold PyStr.len in Hlen. lia.
Qed.

Lemma analysis_notes_pass_validate_note_witness :
  Forall (fun m => MoodSerializers.validate_note (Some (note m))
                   = inr (Some (note m)))
    (mood_logs
       (Views.analyze_emotion Sample.cfg Sample.joy_world
          {| text := Some "I'm feeling amazing today!";
             user_mood := None; persist := true |}
          (Sample.store_of (Sample.user 0 None))).2).
Proof.
  apply analysis_notes_pass_validate_note. constructor.
Defined.

(** X5. What a run of the analysis view never touches: the plan and its
    expiry stay as they were, the mood logs already stored stay in place
    with at most one row added after them, none when persist is off, and
    the reset date it leaves is never a day before today. *)
Theorem analysis_leaves_plan_and_old_logs
    (cfg : settings) (w : world) (data : request_data) (s : store) :
  let out := Views.analyze_emotion cfg w data s in
  plan (profile out.2) = plan (profile s)
  /\ premium_expires_at (profile out.2) = premium_expires_at (profile s)
  /\ (exists added : list MoodLog,
        mood_logs out.2 = mood_logs s ++ added
        /\ (length added <= 1)%nat
        /\ (persist data = false -> added = []))
  /\ (exists d : date,
        last_ai_calls_reset (profile out.2) = Some d
        /\ ~ date_before d (today w)).
Proof.
  intros out.
  destruct (QuotaFacts.ensure_daily_reset_frame w s) as (Hplan & Hexp & Hlogs).
  set (s1 := (ensure_daily_reset w s).2) in *.
  assert (Hdate : exists d, last_ai_calls_reset (profile s1) = Some d
                            /\ ~ date_before d (today w)).
  { subst s1. rewrite QuotaFacts.ensure_daily_reset_run. cbn [snd].
    pose proof (QuotaFacts.reset_test_due (today w) (profile s)) as Hdue.
    destruct (reset_test (today w) (profile s)) eqn:Htest.
    - exists (today w). split; [reflexivity|].
      rewrite <- QuotaFacts.date_ltb_before, QuotaFacts.date_ltb_irrefl.
      discriminate.
    - unfold reset_test in Htest.
      destruct (last_ai_calls_reset (profile s)) as [d|]; [|discriminate].
      exists d. split; [reflexivity|].
      rewrite <- QuotaFacts.date_ltb_before, Htest. discriminate. }
  assert (Hsame : out.2 = s1 ->
    plan (profile out.2) = plan (profile s)
    /\ premium_expires_at (profile out.2) = premium_expires_at (profile s)
    /\ (exists added, mood_logs out.2 = mood_logs s ++ added
                      /\ (length added <= 1)%nat
                      /\ (persist data = false -> added = []))
    /\ (exists d, last_ai_calls_reset (profile out.2) = Some d
                  /\ ~ date_before d (today w))).
  { intros ->. repeat (split; [assumption|]). split; [|exact Hdate].
    exists []. rewrite List.app_nil_r. auto. }
  destruct (analyze_emotion_outcomes cfg w data s)
    as [Hout|[(detail & Hout)|(Hroom & Hne & Hlen)]].
  - apply Hsame. fold out in Hout. rewrite Hout. reflexivity.
  - apply Hsame. fold out in Hout. rewrite Hout. reflexivity.
  - destruct (accepted_shape cfg w data s Hroom Hne Hlen)
      as (r & events & added & tail & response & _ & Hout & Hcases).
    fold out in Hout. fold s1 in Hout. rewrite Hout.
    cbn [snd profile mood_logs with_calls plan premium_expires_at
         last_ai_calls_reset].
    repeat (split; [assumption|]). split; [|exact Hdate].
    exists added. rewrite Hlogs. split; [reflexivity|].
    cbv zeta in Hcases.
    destruct Hcases as [(_ & -> & _)|[(Hp & _ & -> & _)|(Hp & e & _ & -> & _)]];
      cbn [length]; split; auto; congruence.
Qed.

(** X6. The analysis view answers 500 only when persist is on and
    making the mood log row raises: when the score times ten is a finite
    number, so that [int(score * 10)] returns, it is the database that
    refused the row. The quota unit is used all the same, and no row is
    stored. *)
Theorem server_error_only_from_row_creation
    (cfg : settings) (w : world) (data : request_data) (s : store)
    (detail : string) (flag : bool) :
  let s1 := (ensure_daily_reset w s).2 in
  let out := Views.analyze_emotion cfg w data s in
  out.1 = inr (HTTP_500_INTERNAL_SERVER_ERROR detail flag) ->
  persist data = true
  /\ (exists r : EmotionResult,
        (HFClient.analyze_emotion cfg w (text_of data) s1).1 = inr r
        /\ (Limits.product_fits (score r) ->
            exists e : exn, insert_error w (mood_log_row w data r) = Some e))
  /\ daily_ai_calls (profile out.2) = (daily_ai_calls (profile s1) + 1)%Z
  /\ mood_logs out.2 = mood_logs s.
Proof.
  intros s1 out H500.
  destruct (ViewFacts.daily_reset_effects w s) as (Hlogs & _). fold s1 in Hlogs.
  destruct (analyze_emotion_outcomes cfg w data s)
    as [Hout|[(d & Hout)|(Hroom & Hne & Hlen)]].
  - fold out in Hout. rewrite Hout in H500. discriminate.
  - fold out in Hout. rewrite Hout in H500. discriminate.
  - destruct (accepted_shape cfg w data s Hroom Hne Hlen)
      as (r & events & added & tail & response & Hrun & Hout & Hcases).
    fold out in Hout. fold s1 in Hout, Hrun. rewrite Hout in H500 |- *.
    cbn [fst] in H500. injection H500 as ->.
    cbv zeta in Hcases.
    destruct Hcases as [(_ & _ & _ & [=])|[(_ & _ & _ & _ & [=])|(Hp & e & He & -> & _)]].
    split; [exact Hp|]. split.
    + exists r. rewrite Hrun. split; [reflexivity|]. intros _. eauto.
    + cbn [snd profile mood_logs with_calls daily_ai_calls].
      rewrite List.app_nil_r. auto.
Qed.

(** The database refuses the row of a fresh user's first analysis: the
    answer is 500 and the count is 1. *)
Lemma server_error_only_from_row_creation_witness :
  persist {| text := Some "I'm feeling amazing today!";
             user_mood := None; persist := true |} = true
  /\ daily_ai_calls
       (profile
          (Views.analyze_emotion Sample.cfg Sample2.refusing_world
             {| text := Some "I'm feeling amazing today!";
                user_mood := None; persist := true |}
             (Sample.store_of (Sample.user 0 None))).2)
     = 1%Z.
Proof.
  destruct (server_error_only_from_row_creation
              Sample.cfg Sample2.refusing_world
              {| text := Some "I'm feeling amazing today!";
                 user_mood := None; persist := true |}
              (Sample.store_of (Sample.user 0 None))
              "An error occurred during analysis. Please try again." true)
    as (Hp & _ & Hc & _).
  - reflexivity.
  - split; [exact Hp|exact Hc].
Defined.

Lemma neutral_advice :
  generate_advice (label neutral) = generic_advice +:+ disclaimer.
Proof. vm_compute. reflexivity. Qed.

Lemma neutral_playlists :
  default calm_playlists (mood_playlists !! playlist_key (label neutral))
  = calm_playlists.
Proof. vm_compute. reflexivity. Qed.

(** X7. With no credential configured an accepted analysis sends no
    request to the service and still uses one quota unit; whenever it
    answers 200, which it does at least when persist is off, the body
    carries the label neutral, the score 0.5, the unavailable flag, the
    generic advice followed by the disclaimer, and the calm playlists. *)
Theorem analysis_without_credential
    (cfg : settings) (w : world) (data : request_data) (s : store) :
  let s1 := (ensure_daily_reset w s).2 in
  let out := Views.analyze_emotion cfg w data s in
  token_set (HUGGINGFACE_API_TOKEN cfg) = false ->
  (daily_ai_calls (profile s1) < max_calls cfg w (profile s1))%Z ->
  text_of data <> "" ->
  (PyStr.len (text_of data) <= 1000)%Z ->
  (exists events, trace out.2 = trace s1 ++ events /\ no_request events)
  /\ daily_ai_calls (profile out.2) = (daily_ai_calls (profile s1) + 1)%Z
  /\ (persist data = false -> exists body, out.1 = inr (HTTP_200_OK body))
  /\ (forall body,
        out.1 = inr (HTTP_200_OK body) ->
        emotion_label body = "neutral"
        /\ emotion_score body = 1 # 2
        /\ analysis_ai_unavailable body = true
        /\ analysis_advice body = generic_advice +:+ disclaimer
        /\ music_recommendations body = calm_playlists).
Proof.
  intros s1 out Htoken Hroom Hne Hlen.
  apply Z.ltb_lt in Hroom.
  destruct (accepted_shape cfg w data s Hroom Hne Hlen)
    as (r & events & added & tail & response & Hrun & Hout & Hcases).
  fold out in Hout. fold s1 in Hout, Hrun.
  destruct (ClassifierFacts.analyze_emotion_returns cfg w (text_of data) s1)
    as (r' & events' & Hrun' & _ & Hdegraded).
  rewrite Hrun in Hrun'. injection Hrun' as <- Hev.
  apply app_inv_head in Hev. subst events'.
  destruct (Hdegraded Htoken) as [-> Hquiet].
  cbv zeta in Hcases. rewrite neutral_playlists in Hcases.
  rewrite Hout. cbn [fst snd trace profile with_calls daily_ai_calls].
  split.
  { exists (events ++ Save ["daily_ai_calls"] :: tail). split; [reflexivity|].
    apply Forall_app. split; [exact Hquiet|].
    constructor; [discriminate|].
    destruct Hcases as [(_ & _ & -> & _)|[(_ & _ & _ & -> & _)|(_ & e & _ & _ & -> & _)]];
      repeat constructor; discriminate. }
  split; [reflexivity|]. split.
  - intros Hp.
    destruct Hcases as [(_ & _ & _ & ->)|[(Hp' & _)|(Hp' & _)]];
      [eexists; reflexivity|congruence|congruence].
  - intros body [= Hbody].
    destruct Hcases as [(_ & _ & _ & E)|[(_ & _ & _ & _ & E)|(_ & e & _ & _ & _ & E)]];
      rewrite E in Hbody; try discriminate;
      injection Hbody as <-; unfold response_data;
      cbn [emotion_label emotion_score analysis_ai_unavailable
           analysis_advice music_recommendations];
      rewrite neutral_advice; repeat split; reflexivity.
Qed.

(** No credential, a fresh user, persist off. *)
Lemma analysis_without_credential_witness :
  exists body,
    (Views.analyze_emotion Sample.cfg_no_token Sample.joy_world
       {| text := Some "I'm feeling amazing today!";
          user_mood := None; persist := false |}
       (Sample.store_of (Sample.user 0 None))).1
    = inr (HTTP_200_OK body).
Proof.
  refine (proj1 (proj2 (proj2
    (analysis_without_credential
       Sample.cfg_no_token Sample.joy_world
       {| text := Some "I'm feeling amazing today!";
          user_mood := None; persist := false |}
       (Sample.store_of (Sample.user 0 None)) _ _ _ _))) _);
    try reflexivity.
  - discriminate.
  - vm_compute. discriminate.
Defined.

(** The plan after a run of the view is the plan before it. *)
Lemma analysis_plan_kept
    (cfg : settings) (w : world) (data : request_data) (s : store) :
  plan (profile (Views.analyze_emotion cfg w data s).2) = plan (profile s).
Proof.
  destruct (QuotaFacts.ensure_daily_reset_frame w s) as (Hplan & _ & _).
  destruct (analyze_emotion_outcomes cfg w data s)
    as [Hout|[(detail & Hout)|(Hroom & Hne & Hlen)]].
  - rewrite Hout. exact Hplan.
  - rewrite Hout. exact Hplan.
  - destruct (accepted_shape cfg w data s Hroom Hne Hlen)
      as (r & events & added & tail & response & _ & Hout & _).
    rewrite Hout. exact Hplan.
Qed.

End AnalysisFacts.

(** ** More about the gateway and the recommender *)

Module GatewayFacts.
Import HFClient SpotifyRecommendationService Spec Steps.

Lemma lower_char_idempotent (c : ascii) :
  PyStr.lower_char (PyStr.lower_char c) = PyStr.lower_char c.
Proof. destruct c as [[] [] [] [] [] [] [] []]; reflexivity. Qed.

Lemma lower_idempotent (s : string) :
  PyStr.lower (PyStr.lower s) = PyStr.lower s.
Proof.
  induction s as [|c r IH]; [reflexivity|].
  cbn [PyStr.lower]. rewrite lower_char_idempotent, IH. reflexivity.
Qed.

(** [max] returns one of the items it was given. *)
Lemma max_loop_in (w : world) (key : json -> exn + json) (rest : list json) :
  forall maxitem maxval top,
    max_loop w key rest maxitem maxval = inr top ->
    top = maxitem \/ In top rest.
Proof.
  induction rest as [|item rest IH]; intros maxitem maxval top Hrun.
  - injection Hrun as <-. left. reflexivity.
  - cbn [max_loop] in Hrun.
    destruct (key item) as [e|val]; [discriminate|]. cbn [and_then] in Hrun.
    destruct (py_gt w val maxval) as [e|[|]]; [discriminate| |];
      cbn [and_then] in Hrun; apply IH in Hrun;
      destruct Hrun as [->|Hin]; cbn [In]; auto.
Qed.

Lemma py_max_in (w : world) (key : json -> exn + json)
    (items : list json) (top : json) :
  py_max w key items = inr top -> In top items.
Proof.
  destruct items as [|item rest]; [discriminate|]. cbn [py_max].
  destruct (key item) as [e|val]; [discriminate|]. cbn [and_then].
  intros Hrun. apply max_loop_in in Hrun.
  destruct Hrun as [->|Hin]; cbn [In]; auto.
Qed.

(** Where a result of [read_result] comes from: it is the neutral one,
    or it is read off an entry of the payload that has a string label
    and a number as score. *)
Lemma read_result_source (w : world) (payload : json) (r : EmotionResult) :
  read_result w payload = inr r ->
  r = neutral
  \/ exists (entries : list json) (top : json) (l : string) (q : Q),
       emotions_of payload = Some entries /\ In top entries
       /\ label_of top = Some l /\ score_of top = Some q
       /\ r = {| label := PyStr.lower l; score := Py.round3 q;
                 ai_unavailable := false |}.
Proof.
  intros Hread.
  destruct (emotions_of payload) as [entries|] eqn:Hentries.
  - rewrite (ClassifierFacts.read_result_entries w payload entries Hentries) in Hread.
    destruct (py_max w score_key entries) as [e|top] eqn:Hmax; [discriminate|].
    cbn [and_then] in Hread.
    destruct (score_of top) as [q|] eqn:Hq.
    + pose proof (ClassifierFacts.read_top_scored top q Hq) as Hfin.
      destruct (label_of top) as [l|] eqn:Hl.
      * right. exists entries, top, l, q.
        split; [reflexivity|]. split; [eapply py_max_in; exact Hmax|].
        repeat split; try assumption. congruence.
      * destruct Hfin as [e He]. congruence.
    + destruct (ClassifierFacts.read_top_unscored top Hq) as [e He]. congruence.
  - rewrite (ClassifierFacts.read_result_no_entries w payload Hentries) in Hread.
    left. congruence.
Qed.

(** Every result of the gateway is the neutral one or one that
    [read_result] gave for some payload. *)
Lemma analyze_emotion_result_source
    (cfg : settings) (w : world) (text : string) (s : store) :
  exists r : EmotionResult,
    (analyze_emotion cfg w text s).1 = inr r
    /\ (r = neutral \/ exists payload, read_result w payload = inr r).
Proof.
  destruct (token_set (HUGGINGFACE_API_TOKEN cfg)) eqn:Htoken.
  - destruct (ClassifierFacts.analyze_emotion_with_token cfg w text s Htoken)
      as (r & request & log & Hrun & _ & _ & _ & Hpost & Hresp).
    exists r. split; [rewrite Hrun; reflexivity|].
    destruct (requests_post w request) as [e|response] eqn:Hp;
      [left; eauto|].
    destruct (Hresp response eq_refl) as [Hstatus Hok].
    destruct (raise_for_status response) as [e|]; [left; eauto|].
    destruct (Hok eq_refl) as [Hjson Hgood].
    destruct (response_json response) as [e|payload]; [left; eauto|].
    destruct (Hgood payload eq_refl) as [Hfail Hread].
    destruct (read_result w payload) as [e|x] eqn:Hx; [left; eauto|].
    right. exists payload. destruct (Hread x eq_refl) as [-> _]. exact Hx.
  - exists neutral. split; [|left; reflexivity].
    unfold analyze_emotion. rewrite Htoken. reflexivity.
Qed.

(** X8. The label of every result of the gateway is in lower case:
    lower-casing it again changes nothing, so the advice and playlist
    lookups that follow see the key they expect. *)
Theorem gateway_labels_are_lower_case
    (cfg : settings) (w : world) (text : string) (s : store) :
  exists r : EmotionResult,
    (analyze_emotion cfg w text s).1 = inr r
    /\ PyStr.lower (label r) = label r
    /\ generate_advice (label r)
       = default generic_advice
           (advice_templates
              !! default (label r) (emotion_mapping !! label r))
         +:+ disclaimer.
Proof.
  destruct (analyze_emotion_result_source cfg w text s) as (r & Hrun & Hsrc).
  exists r. split; [exact Hrun|].
  assert (Hlow : PyStr.lower (label r) = label r).
  { destruct Hsrc as [->|(payload & Hread)]; [reflexivity|].
    apply read_result_source in Hread.
    destruct Hread as [->|(entries & top & l & q & _ & _ & _ & _ & ->)];
      [reflexivity|apply lower_idempotent]. }
  split; [exact Hlow|].
  unfold generate_advice. rewrite Hlow. reflexivity.
Qed.

(** Rounding to three places keeps a number of [0, 1] in [0, 1]. *)
Lemma round3_unit_interval (q : Q) :
  (0 <= q)%Q -> (q <= 1)%Q ->
  exists k : Z, (0 <= k <= 1000)%Z /\ (Py.round3 q == k # 1000)%Q.
Proof.
  intros H0 H1. exists (Py.round_half_even (q * 1000)).
  split; [|apply Qred_correct].
  destruct (ClassifierFacts.round_half_even_near (q * 1000)) as [Hlo Hhi].
  split.
  - assert (H : (inject_Z (-1) < inject_Z (Py.round_half_even (q * 1000)))%Q).
    { change (inject_Z (-1)) with (-1)%Q. lra. }
    rewrite <- Zlt_Qlt in H. lia.
  - assert (H : (inject_Z (Py.round_half_even (q * 1000)) < inject_Z 1001)%Q).
    { change (inject_Z 1001) with 1001%Q. lra. }
    rewrite <- Zlt_Qlt in H. lia.
Qed.

(** Where a result of the gateway comes from: it is the neutral one, or
    [read_result] gave it for the payload of an answer to the request. *)
Lemma analyze_emotion_result_origin
    (cfg : settings) (w : world) (text : string) (s : store) :
  exists r : EmotionResult,
    (analyze_emotion cfg w text s).1 = inr r
    /\ (r = neutral
        \/ exists (request : http_request) (response : http_response)
                  (payload : json),
             requests_post w request = inr response
             /\ response_json response = inr payload
             /\ read_result w payload = inr r).
Proof.
  destruct (token_set (HUGGINGFACE_API_TOKEN cfg)) eqn:Htoken.
  - destruct (ClassifierFacts.analyze_emotion_with_token cfg w text s Htoken)
      as (r & request & log & Hrun & _ & _ & _ & Hpost & Hresp).
    exists r. split; [rewrite Hrun; reflexivity|].
    destruct (requests_post w request) as [e|response] eqn:Hp;
      [left; eauto|].
    destruct (Hresp response eq_refl) as [Hstatus Hok].
    destruct (raise_for_status response) as [e|]; [left; eauto|].
    destruct (Hok eq_refl) as [Hjson Hgood].
    destruct (response_json response) as [e|payload] eqn:Hj; [left; eauto|].
    destruct (Hgood payload eq_refl) as [Hfail Hread].
    destruct (read_result w payload) as [e|x] eqn:Hx; [left; eauto|].
    right. exists request, response, payload.
    destruct (Hread x eq_refl) as [-> _]. auto.
  - exists neutral. split; [|left; reflexivity].
    unfold analyze_emotion. rewrite Htoken. reflexivity.
Qed.

(** X9. When every number that an answer of the service gives as the
    score of an entry lies between 0 and 1, the score of the gateway's
    result, the neutral fallback included, is a whole number of
    thousandths between 0 and 1. *)
Theorem scores_stay_in_unit_interval
    (cfg : settings) (w : world) (text : string) (s : store) :
  (forall (request : http_request) (response : http_response)
          (payload : json) (entries : list json),
     requests_post w request = inr response ->
     response_json response = inr payload ->
     emotions_of payload = Some entries ->
     Forall (fun e => forall q, score_of e = Some q -> (0 <= q)%Q /\ (q <= 1)%Q)
       entries) ->
  exists (r : EmotionResult) (k : Z),
    (analyze_emotion cfg w text s).1 = inr r
    /\ (0 <= k <= 1000)%Z
    /\ (score r == k # 1000)%Q.
Proof.
  intros Hunit.
  destruct (analyze_emotion_result_origin cfg w text s) as (r & Hrun & Hsrc).
  exists r.
  assert (Hk : exists k : Z, (0 <= k <= 1000)%Z /\ (score r == k # 1000)%Q).
  { destruct Hsrc as [->|(request & response & payload & Hpost & Hjson & Hread)].
    - exists 500%Z. split; [lia|reflexivity].
    - apply read_result_source in Hread.
      destruct Hread as [->|(entries & top & l & q & Hentries & Hin & _ & Hq & ->)].
      + exists 500%Z. split; [lia|reflexivity].
      + cbn [score].
        pose proof (Hunit request response payload entries Hpost Hjson Hentries)
          as Hall.
        rewrite List.Forall_forall in Hall.
        destruct (Hall top Hin q Hq) as [H0 H1].
        apply round3_unit_interval; assumption. }
  destruct Hk as (k & Hk & Hscore). exists k. auto.
Qed.

(** The service answers Sadness at 0.25, JOY and Fear at 0.95678: the
    score of the result is 957 thousandths. *)
Lemma scores_stay_in_unit_interval_witness :
  exists (r : EmotionResult) (k : Z),
    (analyze_emotion Sample.cfg Sample3.mixed_world "what a day"
       (Sample.store_of (Sample.user 0 None))).1 = inr r
    /\ (0 <= k <= 1000)%Z
    /\ (score r == k # 1000)%Q.
Proof.
  apply (scores_stay_in_unit_interval Sample.cfg Sample3.mixed_world
           "what a day" (Sample.store_of (Sample.user 0 None))).
  intros request response payload entries Hpost Hjson Hentries.
  cbn in Hpost. injection Hpost as <-.
  cbn in Hjson. injection Hjson as <-.
  cbn in Hentries. injection Hentries as <-.
  unfold Sample3.mixed_entries.
  repeat (apply List.Forall_cons;
          [intros q Hq; vm_compute in Hq; injection Hq as <-;
           split; discriminate|]).
  apply List.Forall_nil.
Defined.

(** X10. Whatever the mood, the recommender returns exactly two
    playlists, each with a title and a link into
    [https://open.spotify.com/playlist/]. *)
Theorem recommendations_are_two_spotify_playlists (mood : string) :
  exists l : list playlist,
    get_recommendations mood = inr l
    /\ length l = 2%nat
    /\ Forall (fun p =>
                 title p <> ""
                 /\ String.prefix "https://open.spotify.com/playlist/" (url p)
                    = true) l.
Proof.
  rewrite RecommenderFacts.get_recommendations_eq. eexists.
  split; [reflexivity|].
  assert (Hcalm : Forall (fun p =>
                    title p <> ""
                    /\ String.prefix "https://open.spotify.com/playlist/" (url p)
                       = true) calm_playlists).
  { repeat constructor; discriminate. }
  destruct (mood_playlists !! playlist_key mood) as [l|] eqn:Hk; cbn [default].
  - split; [exact (RecommenderFacts.buckets_have_two _ _ Hk)|].
    revert Hk.
    apply (table_lookup_Forall
             (fun _ l => Forall (fun p =>
                title p <> ""
                /\ String.prefix "https://open.spotify.com/playlist/" (url p)
                   = true) l)).
    unfold mood_playlists_items.
    repeat (constructor; [repeat constructor; discriminate|]). constructor.
  - split; [reflexivity|exact Hcalm].
Qed.

End GatewayFacts.

(** ** A day of requests *)

Module SessionFacts.
Import HFClient Views Spec Steps Session.

Lemma posts_app (a b : list event) : posts (a ++ b) = (posts a + posts b)%Z.
Proof.
  induction a as [|ev a IH]; [reflexivity|].
  destruct ev; cbn [app posts]; rewrite IH; lia.
Qed.

(** The gateway sends at most one request. *)
Lemma gateway_posts_at_most_once
    (cfg : settings) (w : world) (text : string) (s : store) :
  exists (r : EmotionResult) (events : list event),
    HFClient.analyze_emotion cfg w text s
    = (inr r,
       {| profile := profile s; mood_logs := mood_logs s;
          trace := trace s ++ events |})
    /\ (0 <= posts events <= 1)%Z.
Proof.
  destruct (token_set (HUGGINGFACE_API_TOKEN cfg)) eqn:Htoken.
  - destruct (ClassifierFacts.analyze_emotion_with_token cfg w text s Htoken)
      as (r & request & log & Hrun & _ & _ & Hlog & _).
    exists r, (Post request :: log). split; [exact Hrun|].
    destruct Hlog as [->|(msg & e & ->)]; cbn; lia.
  - exists neutral, [LogWarning "Hugging Face API token not configured"].
    split; [|cbn; lia].
    unfold HFClient.analyze_emotion. rewrite Htoken. reflexivity.
Qed.

(** The count the daily reset leaves on day [d]. *)
Lemma calls_after_reset (w : world) (s : store) :
  daily_ai_calls (profile (ensure_daily_reset w s).2)
  = if reset_test (today w) (profile s) then 0%Z
    else daily_ai_calls (profile s).
Proof.
  rewrite QuotaFacts.ensure_daily_reset_run. cbn [snd].
  destruct (reset_test (today w) (profile s)); reflexivity.
Qed.

(** After the daily reset no reset is due that day, and the reset adds no
    request to the trace. *)
Lemma reset_settles (w : world) (s : store) :
  let s1 := (ensure_daily_reset w s).2 in
  reset_test (today w) (profile s1) = false
  /\ posts (trace s1) = posts (trace s).
Proof.
  cbv zeta. rewrite QuotaFacts.ensure_daily_reset_run. cbn [snd].
  destruct (reset_test (today w) (profile s)) eqn:Htest.
  - cbn [profile trace]. unfold reset_test. cbn.
    rewrite QuotaFacts.date_ltb_irrefl, posts_app. cbn. split; [reflexivity|lia].
  - auto.
Qed.

Lemma free_ceiling (cfg : settings) (w : world) (p : UserProfile) :
  plan p <> "PREMIUM" -> max_calls cfg w p = FREE_DAILY_AI_CALLS cfg.
Proof.
  intros Hfree. unfold max_calls, is_premium_active.
  destruct (String.eqb_spec (plan p) "PREMIUM"); [contradiction|reflexivity].
Qed.

(** One request of a free user: the plan stays, no reset is due
    afterwards, and either nothing was sent and the count is the one the
    reset left, or the count was below the ceiling, went up by one, and
    at most one request was sent. *)
Lemma free_user_step
    (cfg : settings) (w : world) (data : request_data) (s : store) :
  plan (profile s) <> "PREMIUM" ->
  let c0 := if reset_test (today w) (profile s) then 0%Z
            else daily_ai_calls (profile s) in
  let s' := (Views.analyze_emotion cfg w data s).2 in
  plan (profile s') <> "PREMIUM"
  /\ reset_test (today w) (profile s') = false
  /\ ((daily_ai_calls (profile s') = c0
       /\ posts (trace s') = posts (trace s))
      \/ ((c0 < FREE_DAILY_AI_CALLS cfg)%Z
          /\ daily_ai_calls (profile s') = (c0 + 1)%Z
          /\ (posts (trace s) <= posts (trace s') <= posts (trace s) + 1)%Z)).
Proof.
  intros Hfree c0 s'.
  destruct (QuotaFacts.ensure_daily_reset_frame w s) as (Hplan & _ & _).
  destruct (reset_settles w s) as [Hsettled Hposts].
  pose proof (calls_after_reset w s) as Hcalls. fold c0 in Hcalls.
  set (s1 := (ensure_daily_reset w s).2) in *.
  assert (Hfree1 : plan (profile s1) <> "PREMIUM") by congruence.
  pose proof (free_ceiling cfg w (profile s1) Hfree1) as Hceil.
  destruct (AnalysisFacts.analyze_emotion_outcomes cfg w data s)
    as [Hout|[(detail & Hout)|(Hroom & Hne & Hlen)]]; try fold s1 in Hout.
  - subst s'. rewrite Hout. cbn [snd]. auto.
  - subst s'. rewrite Hout. cbn [snd]. auto.
  - destruct (AnalysisFacts.accepted_shape cfg w data s Hroom Hne Hlen)
      as (r & events & added & tail & response & Hrun & Hout & Hcases).
    fold s1 in Hout, Hrun, Hroom.
    destruct (gateway_posts_at_most_once cfg w (text_of data) s1)
      as (r' & events' & Hrun' & Hcount).
    rewrite Hrun in Hrun'. injection Hrun' as _ Hev.
    apply app_inv_head in Hev. subst events'.
    assert (Htail : posts tail = 0%Z).
    { cbv zeta in Hcases.
      destruct Hcases as [(_ & _ & -> & _)|[(_ & _ & _ & -> & _)|(_ & e & _ & _ & -> & _)]];
        reflexivity. }
    subst s'. rewrite Hout.
    cbn [snd profile trace with_calls plan daily_ai_calls].
    split; [exact Hfree1|]. split; [exact Hsettled|]. right.
    rewrite Hceil, Hcalls in Hroom. apply Z.ltb_lt in Hroom.
    split; [exact Hroom|]. split; [congruence|].
    rewrite !posts_app. cbn [posts]. rewrite Htail, Hposts. lia.
Qed.

(** X11. A free user's requests of one day, whatever they are and
    however the service answers, reach the classification service at
    most as many times as the free ceiling leaves room for after the
    day's reset. *)
Theorem free_user_daily_cap
    (cfg : settings) (d : date)
    (requests : list (world * request_data)) :
  forall s : store,
    plan (profile s) <> "PREMIUM" ->
    Forall (fun wd => today wd.1 = d) requests ->
    let c0 := if reset_test d (profile s) then 0%Z
              else daily_ai_calls (profile s) in
    (posts (trace (analyze_all cfg requests s))
     <= posts (trace s) + Z.max 0 (FREE_DAILY_AI_CALLS cfg - c0))%Z.
Proof.
  induction requests as [|[w data] rest IH]; intros s Hfree Hday c0.
  - cbn [analyze_all]. lia.
  - inversion Hday as [|? ? Hw Hrest]; subst. cbn [fst] in *.
    destruct (free_user_step cfg w data s Hfree) as (Hfree' & Hsettled & Hstep).
    cbn [analyze_all].
    specialize (IH (Views.analyze_emotion cfg w data s).2 Hfree' Hrest).
    cbv zeta in IH. rewrite Hsettled in IH.
    subst c0.
    destruct Hstep as [(Hc & Hp)|(Hlt & Hc & Hp)]; rewrite Hc in IH; lia.
Qed.

Lemma free_user_daily_cap_witness :
  (posts
     (trace
        (analyze_all Sample.cfg
           [(Sample.joy_world,
             {| text := Some "one"; user_mood := None; persist := false |});
            (Sample.joy_world,
             {| text := Some "two"; user_mood := None; persist := false |})]
           (Sample.store_of (Sample.user 4 (Some (today Sample.joy_world))))))
   <= posts (trace (Sample.store_of
                      (Sample.user 4 (Some (today Sample.joy_world)))))
      + Z.max 0 (FREE_DAILY_AI_CALLS Sample.cfg - 4))%Z.
Proof.
  apply (free_user_daily_cap Sample.cfg (today Sample.joy_world)
           [(Sample.joy_world,
             {| text := Some "one"; user_mood := None; persist := false |});
            (Sample.joy_world,
             {| text := Some "two"; user_mood := None; persist := false |})]
           (Sample.store_of (Sample.user 4 (Some (today Sample.joy_world))))).
  - discriminate.
  - repeat constructor.
Defined.

(** X12. The call count never leaves the range from 0 to the larger of
    the two ceilings: if it starts there, it is there after any run of
    requests, whatever the days, the clocks and the answers. *)
Theorem call_count_stays_in_range
    (cfg : settings) (requests : list (world * request_data)) :
  forall s : store,
    let top := Z.max 0 (Z.max (FREE_DAILY_AI_CALLS cfg)
                          (PREMIUM_DAILY_AI_CALLS cfg)) in
    (0 <= daily_ai_calls (profile s) <= top)%Z ->
    (0 <= daily_ai_calls (profile (analyze_all cfg requests s)) <= top)%Z.
Proof.
  induction requests as [|[w data] rest IH]; intros s top Hin.
  - exact Hin.
  - cbn [analyze_all]. apply IH. fold top.
    pose proof (calls_after_reset w s) as Hcalls.
    set (s1 := (ensure_daily_reset w s).2) in *.
    assert (Hin1 : (0 <= daily_ai_calls (profile s1) <= top)%Z).
    { rewrite Hcalls. destruct (reset_test (today w) (profile s)); lia. }
    destruct (AnalysisFacts.analyze_emotion_outcomes cfg w data s)
      as [Hout|[(detail & Hout)|(Hroom & Hne & Hlen)]]; try fold s1 in Hout.
    + rewrite Hout. exact Hin1.
    + rewrite Hout. exact Hin1.
    + destruct (AnalysisFacts.accepted_shape cfg w data s Hroom Hne Hlen)
        as (r & events & added & tail & response & _ & Hout & _).
      fold s1 in Hout, Hroom. rewrite Hout.
      cbn [snd profile with_calls daily_ai_calls].
      apply Z.ltb_lt in Hroom. unfold max_calls in Hroom.
      destruct (is_premium_active w (profile s1)); lia.
Qed.

Lemma call_count_stays_in_range_witness :
  (0 <= daily_ai_calls
          (profile
             (analyze_all Sample.cfg
                [(Sample.joy_world,
                  {| text := Some "one"; user_mood := None; persist := false |})]
                (Sample.store_of (Sample.user 4 None))))
     <= Z.max 0 (Z.max (FREE_DAILY_AI_CALLS Sample.cfg)
                   (PREMIUM_DAILY_AI_CALLS Sample.cfg)))%Z.
Proof.
  apply (call_count_stays_in_range Sample.cfg
           [(Sample.joy_world,
             {| text := Some "one"; user_mood := None; persist := false |})]
           (Sample.store_of (Sample.user 4 None))).
  vm_compute. split; discriminate.
Defined.

(** One valid request of a free user who has room. *)
Lemma free_user_valid_step
    (cfg : settings) (w : world) (data : request_data) (s : store) :
  plan (profile s) <> "PREMIUM" ->
  let c0 := if reset_test (today w) (profile s) then 0%Z
            else daily_ai_calls (profile s) in
  let s' := (Views.analyze_emotion cfg w data s).2 in
  (c0 < FREE_DAILY_AI_CALLS cfg)%Z ->
  text_of data <> "" ->
  (PyStr.len (text_of data) <= 1000)%Z ->
  plan (profile s') <> "PREMIUM"
  /\ reset_test (today w) (profile s') = false
  /\ daily_ai_calls (profile s') = (c0 + 1)%Z.
Proof.
  intros Hfree c0 s' Hlt Hne Hlen.
  destruct (QuotaFacts.ensure_daily_reset_frame w s) as (Hplan & _ & _).
  destruct (reset_settles w s) as [Hsettled _].
  pose proof (calls_after_reset w s) as Hcalls. fold c0 in Hcalls.
  set (s1 := (ensure_daily_reset w s).2) in *.
  assert (Hfree1 : plan (profile s1) <> "PREMIUM") by congruence.
  pose proof (free_ceiling cfg w (profile s1) Hfree1) as Hceil.
  assert (Hroom : (daily_ai_calls (profile s1) <? max_calls cfg w (profile s1))%Z = true)
    by (rewrite Hceil, Hcalls; apply Z.ltb_lt; exact Hlt).
  destruct (AnalysisFacts.accepted_shape cfg w data s Hroom Hne Hlen)
    as (r & events & added & tail & response & _ & Hout & _).
  fold s1 in Hout. subst s'. rewrite Hout.
  cbn [snd profile with_calls plan daily_ai_calls].
  split; [exact Hfree1|]. split; [exact Hsettled|]. congruence.
Qed.

Lemma free_user_counts_from_settled
    (cfg : settings) (d : date)
    (requests : list (world * request_data)) :
  forall s : store,
    plan (profile s) <> "PREMIUM" ->
    reset_test d (profile s) = false ->
    Forall (fun wd => today wd.1 = d /\ text_of wd.2 <> ""
                      /\ (PyStr.len (text_of wd.2) <= 1000)%Z) requests ->
    (daily_ai_calls (profile s) + Z.of_nat (length requests)
     <= FREE_DAILY_AI_CALLS cfg)%Z ->
    let final := analyze_all cfg requests s in
    plan (profile final) <> "PREMIUM"
    /\ reset_test d (profile final) = false
    /\ daily_ai_calls (profile final)
       = (daily_ai_calls (profile s) + Z.of_nat (length requests))%Z.
Proof.
  induction requests as [|[w data] rest IH]; intros s Hfree Hsettled Hall Hroom.
  - cbn. split; [exact Hfree|]. split; [exact Hsettled|]. lia.
  - inversion Hall as [|? ? (Hw & Hne & Hlen) Hrest]; subst.
    cbn [fst snd] in *. cbn [length] in Hroom.
    destruct (free_user_valid_step cfg w data s Hfree) as (Hfree' & Hsettled' & Hc);
      try assumption.
    { rewrite Hsettled. lia. }
    rewrite Hsettled in Hc. cbn [analyze_all].
    destruct (IH (Views.analyze_emotion cfg w data s).2 Hfree' Hsettled' Hrest)
      as (Hf & Hs & Hn); [lia|].
    split; [exact Hf|]. split; [exact Hs|]. cbn [length]. lia.
Qed.

(** X13. A free user's valid requests of one day are each counted: as
    long as the day's room is enough for all of them, the count after
    them is the count the reset left plus their number; and if that fills
    the ceiling, every further request of that day is refused with 402,
    carrying that count. *)
Theorem free_user_counts_each_valid_request
    (cfg : settings) (d : date) (w : world) (data : request_data)
    (rest : list (world * request_data)) (s : store) :
  plan (profile s) <> "PREMIUM" ->
  Forall (fun wd => today wd.1 = d /\ text_of wd.2 <> ""
                    /\ (PyStr.len (text_of wd.2) <= 1000)%Z)
    ((w, data) :: rest) ->
  let c0 := if reset_test d (profile s) then 0%Z
            else daily_ai_calls (profile s) in
  let n := Z.of_nat (length ((w, data) :: rest)) in
  let final := analyze_all cfg ((w, data) :: rest) s in
  (c0 + n <= FREE_DAILY_AI_CALLS cfg)%Z ->
  daily_ai_calls (profile final) = (c0 + n)%Z
  /\ ((c0 + n)%Z = FREE_DAILY_AI_CALLS cfg ->
      forall (w' : world) (data' : request_data),
        today w' = d ->
        Views.analyze_emotion cfg w' data' final
        = (inr (HTTP_402_PAYMENT_REQUIRED
                  "Daily AI limit reached. Upgrade to Premium for more calls."
                  (c0 + n) (FREE_DAILY_AI_CALLS cfg) (plan (profile s))),
           final)).
Proof.
  intros Hfree Hall c0 n final Hroom.
  inversion Hall as [|? ? (Hw & Hne & Hlen) Hrest]; subst.
  cbn [fst snd] in *.
  destruct (free_user_valid_step cfg w data s Hfree) as (Hfree' & Hsettled' & Hc);
    try assumption.
  { fold c0. subst n. cbn [length] in Hroom. lia. }
  fold c0 in Hc.
  destruct (free_user_counts_from_settled cfg (today w) rest
              (Views.analyze_emotion cfg w data s).2 Hfree' Hsettled' Hrest)
    as (Hf & Hs & Hn).
  { rewrite Hc. subst n. cbn [length] in Hroom. lia. }
  assert (Hfinal : daily_ai_calls (profile final) = (c0 + n)%Z).
  { subst final n. cbn [analyze_all length]. rewrite Hn, Hc. lia. }
  split; [exact Hfinal|].
  intros Hfull w' data' Hw'.
  assert (Hplan : plan (profile final) = plan (profile s)).
  { subst final. clear -Hfree. revert s Hfree.
    generalize ((w, data) :: rest) as l.
    induction l as [|[w1 d1] l IH]; intros s Hfree; [reflexivity|].
    cbn [analyze_all]. rewrite IH.
    - apply (AnalysisFacts.analysis_plan_kept cfg w1 d1 s).
    - rewrite (AnalysisFacts.analysis_plan_kept cfg w1 d1 s). exact Hfree. }
  assert (Hreset : (ensure_daily_reset w' final).2 = final).
  { rewrite QuotaFacts.ensure_daily_reset_run. cbn [snd].
    rewrite Hw'. subst final. cbn [analyze_all]. rewrite Hs. reflexivity. }
  pose proof (ViewFacts.analyze_emotion_no_quota cfg w' data' final) as Hno.
  cbv zeta in Hno. rewrite Hreset in Hno.
  rewrite free_ceiling in Hno by congruence.
  rewrite Hno; [|apply Z.ltb_ge; lia].
  unfold quota_error. rewrite free_ceiling by congruence.
  rewrite Hfinal, Hplan. reflexivity.
Qed.

Lemma free_user_counts_each_valid_request_witness :
  daily_ai_calls
    (profile
       (analyze_all Sample.cfg
          [(Sample.joy_world,
            {| text := Some "one"; user_mood := None; persist := false |});
           (Sample.joy_world,
            {| text := Some "two"; user_mood := None; persist := false |})]
          (Sample.store_of (Sample.user 3 (Some (today Sample.joy_world))))))
  = 5%Z.
Proof.
  refine (proj1 (free_user_counts_each_valid_request
           Sample.cfg (today Sample.joy_world) Sample.joy_world
           {| text := Some "one"; user_mood := None; persist := false |}
           [(Sample.joy_world,
             {| text := Some "two"; user_mood := None; persist := false |})]
           (Sample.store_of (Sample.user 3 (Some (today Sample.joy_world))))
           _ _ _)).
  - discriminate.
  - repeat constructor; try discriminate; vm_compute; discriminate.
  - vm_compute. discriminate.
Defined.

End SessionFacts.

(** ** Payments and the quota *)

Module PaymentsFacts.
Import Views Spec Steps Users Payments.

Lemma process_success_done (t1 t2 : Z) (pay : Payment) (p : UserProfile) :
  status (process_success t1 t2 pay p).1 = "SUCCESS".
Proof.
  unfold process_success.
  destruct (String.eqb_spec (status pay) "SUCCESS") as [E|_]; [exact E|reflexivity].
Qed.

(** A payment that is a success is left alone, and so is the profile. *)
Lemma process_success_of_success
    (t1 t2 : Z) (pay : Payment) (p : UserProfile) :
  status pay = "SUCCESS" -> process_success t1 t2 pay p = (pay, p).
Proof.
  intros Hdone. unfold process_success. rewrite Hdone, String.eqb_refl.
  reflexivity.
Qed.

(** X14. Processing a payment a second time changes nothing, whenever
    the second processing happens. *)
Theorem process_success_idempotent
    (t1 t2 t3 t4 : Z) (pay : Payment) (p : UserProfile) :
  let once := process_success t1 t2 pay p in
  process_success t3 t4 once.1 once.2 = once.
Proof.
  intros once. pose proof (process_success_done t1 t2 pay p) as Hdone.
  fold once in Hdone.
  rewrite (process_success_of_success t3 t4 once.1 once.2 Hdone).
  destruct once. reflexivity.
Qed.

(** What processing a payment that is not yet a success does to the
    profile. *)
Lemma process_success_pending (t1 t2 : Z) (pay : Payment) (p : UserProfile) :
  status pay <> "SUCCESS" ->
  process_success t1 t2 pay p
  = ({| status := "SUCCESS"; duration_days := duration_days pay |},
     {| plan := "PREMIUM";
        premium_expires_at :=
          Some (match premium_expires_at p with
                | Some old =>
                    if (old >? t1)%Z
                    then (old + timedelta_days (duration_days pay))%Z
                    else (t2 + timedelta_days (duration_days pay))%Z
                | None => (t2 + timedelta_days (duration_days pay))%Z
                end);
        daily_ai_calls := 0;
        last_ai_calls_reset := last_ai_calls_reset p |}).
Proof.
  intros Hpending. unfold process_success.
  destruct (String.eqb_spec (status pay) "SUCCESS"); [contradiction|reflexivity].
Qed.

(** After a payment that was not yet a success is processed, the
    profile is premium-active until the plan's duration after the moment
    of processing has passed, and its call count is 0. *)
Lemma process_success_active
    (t1 t2 : Z) (pay : Payment) (p : UserProfile) (w : world) :
  status pay <> "SUCCESS" ->
  (t1 <= t2)%Z ->
  (now w < t1 + timedelta_days (duration_days pay))%Z ->
  is_premium_active w (process_success t1 t2 pay p).2 = true
  /\ daily_ai_calls (process_success t1 t2 pay p).2 = 0%Z.
Proof.
  intros Hpending Hclock Hnow.
  rewrite (process_success_pending t1 t2 pay p Hpending).
  cbn [snd daily_ai_calls]. split; [|reflexivity].
  unfold is_premium_active. cbn [plan premium_expires_at].
  rewrite String.eqb_refl. cbn [negb]. apply Z.ltb_lt.
  destruct (premium_expires_at p) as [old|]; [|lia].
  destruct (Z.gtb_spec old t1); lia.
Qed.

(** Settles [Limits.renewal_fits] for given times and a given profile. *)
Ltac renewal_fits_here :=
  unfold Limits.renewal_fits, Limits.timedelta_ok, Limits.datetime_ok,
    Limits.datetime_min, Limits.datetime_max, timedelta_days;
  cbn [duration_days];
  split; [lia|split; [lia|]];
  let old := fresh "old" in
  let H := fresh "H" in
  intros old H; vm_compute in H;
  first [discriminate H | injection H as <-; lia].

(** X15. Processing a payment that is not yet a success, when the plan's
    duration and the instants it leads to are ones Python's [timedelta]
    and [datetime] can hold (so that the sum does not raise), marks the
    payment as a success, puts the user on the PREMIUM plan with a call
    count of 0, and leaves an expiry at least the plan's duration after
    the moment of processing: the profile is premium-active at every
    instant before that. *)
Theorem process_success_grants_premium
    (t1 t2 : Z) (pay : Payment) (p : UserProfile) :
  status pay <> "SUCCESS" ->
  (t1 <= t2)%Z ->
  Limits.renewal_fits t2 (duration_days pay) p ->
  let after := process_success t1 t2 pay p in
  status after.1 = "SUCCESS"
  /\ plan after.2 = "PREMIUM"
  /\ daily_ai_calls after.2 = 0%Z
  /\ last_ai_calls_reset after.2 = last_ai_calls_reset p
  /\ (exists expires : Z,
        premium_expires_at after.2 = Some expires
        /\ (t1 + timedelta_days (duration_days pay) <= expires)%Z)
  /\ (forall w : world,
        (now w < t1 + timedelta_days (duration_days pay))%Z ->
        is_premium_active w after.2 = true).
Proof.
  intros Hpending Hclock _ after. subst after.
  rewrite (process_success_pending t1 t2 pay p Hpending).
  cbn [fst snd status plan daily_ai_calls last_ai_calls_reset premium_expires_at].
  set (expires := match premium_expires_at p with
                  | Some old => _
                  | None => _
                  end).
  assert (Hexp : (t1 + timedelta_days (duration_days pay) <= expires)%Z).
  { subst expires. destruct (premium_expires_at p) as [old|]; [|lia].
    destruct (Z.gtb_spec old t1); lia. }
  repeat (split; [reflexivity|]). split; [eauto|].
  intros w Hnow. unfold is_premium_active.
  cbn [plan premium_expires_at]. rewrite String.eqb_refl.
  cbn [negb]. apply Z.ltb_lt. lia.
Qed.

(** A pending 30-day payment of a user who never was premium, processed
    on 2 September 2025. *)
Lemma process_success_grants_premium_witness :
  Limits.renewal_fits 1756800000000000 30 create_user_profile
  /\ plan (process_success 1756800000000000 1756800000000000
             {| status := "PENDING"; duration_days := 30 |}
             create_user_profile).2
     = "PREMIUM"
  /\ premium_expires_at
       (process_success 1756800000000000 1756800000000000
          {| status := "PENDING"; duration_days := 30 |}
          create_user_profile).2
     = Some 1759392000000000%Z.
Proof.
  assert (Hfits : Limits.renewal_fits 1756800000000000 30 create_user_profile)
    by renewal_fits_here.
  split; [exact Hfits|]. split; [|reflexivity].
  refine (proj1 (proj2 (process_success_grants_premium
            1756800000000000 1756800000000000
            {| status := "PENDING"; duration_days := 30 |}
            create_user_profile _ _ Hfits))).
  - discriminate.
  - lia.
Defined.

(** X16. A payment never shortens a subscription, when the plan's
    duration and the instants it leads to are ones Python's [timedelta]
    and [datetime] can hold: renewing while the expiry is still ahead
    adds the whole duration to it, and with a duration that is not
    negative the new expiry is never earlier than the old one. *)
Theorem process_success_keeps_paid_time
    (t1 t2 : Z) (pay : Payment) (p : UserProfile) (old : Z) :
  status pay <> "SUCCESS" ->
  (t1 <= t2)%Z ->
  Limits.renewal_fits t2 (duration_days pay) p ->
  premium_expires_at p = Some old ->
  let after := process_success t1 t2 pay p in
  ((t1 < old)%Z ->
   premium_expires_at after.2
   = Some (old + timedelta_days (duration_days pay))%Z)
  /\ ((0 <= duration_days pay)%Z ->
      exists expires : Z,
        premium_expires_at after.2 = Some expires /\ (old <= expires)%Z).
Proof.
  intros Hpending Hclock _ Hold after. subst after.
  rewrite (process_success_pending t1 t2 pay p Hpending), Hold.
  cbn [snd premium_expires_at]. unfold timedelta_days.
  destruct (Z.gtb_spec old t1) as [Hact|Hexpd]; split.
  - reflexivity.
  - intros Hd. eexists. split; [reflexivity|lia].
  - lia.
  - intros Hd. eexists. split; [reflexivity|lia].
Qed.

(** A premium user whose time runs out on 12 September 2025 renews for
    30 days on 2 September: the new expiry is 12 October. *)
Lemma process_success_keeps_paid_time_witness :
  Limits.renewal_fits 1756800000000001 30
    (Sample.premium_user 7 (Some 1757664000000000))
  /\ premium_expires_at
       (process_success 1756800000000000 1756800000000001
          {| status := "PENDING"; duration_days := 30 |}
          (Sample.premium_user 7 (Some 1757664000000000))).2
     = Some 1760256000000000%Z.
Proof.
  assert (Hfits : Limits.renewal_fits 1756800000000001 30
                    (Sample.premium_user 7 (Some 1757664000000000)))
    by renewal_fits_here.
  split; [exact Hfits|].
  refine (proj1 (process_success_keeps_paid_time
            1756800000000000 1756800000000001
            {| status := "PENDING"; duration_days := 30 |}
            (Sample.premium_user 7 (Some 1757664000000000))
            1757664000000000 _ _ Hfits _) _).
  - discriminate.
  - lia.
  - reflexivity.
  - lia.
Defined.

(** X17. Right after a payment is processed (the plan's duration and
    the instants it leads to being ones Python's [timedelta] and
    [datetime] can hold) the user has the whole premium allowance: at
    any instant before the paid time runs out, with a premium ceiling
    above 0, the quota check lets the next request through and the
    remaining calls are the premium ceiling, whatever the count was
    before. *)
Theorem payment_restores_quota
    (cfg : settings) (w : world) (t1 t2 : Z) (pay : Payment) (s : store) :
  status pay <> "SUCCESS" ->
  (t1 <= t2)%Z ->
  Limits.renewal_fits t2 (duration_days pay) (profile s) ->
  (now w < t1 + timedelta_days (duration_days pay))%Z ->
  (0 < PREMIUM_DAILY_AI_CALLS cfg)%Z ->
  let paid :=
    {| profile := (process_success t1 t2 pay (profile s)).2;
       mood_logs := mood_logs s; trace := trace s |} in
  (check_ai_quota cfg w paid).1 = inr HasQuota
  /\ remaining_ai_calls cfg w (profile (ensure_daily_reset w paid).2)
     = PREMIUM_DAILY_AI_CALLS cfg.
Proof.
  intros Hpending Hclock _ Hnow Hceil paid.
  destruct (process_success_active t1 t2 pay (profile s) w Hpending Hclock Hnow)
    as (Hactive & Hcalls).
  set (p' := (process_success t1 t2 pay (profile s)).2) in *.
  destruct (QuotaFacts.ensure_daily_reset_frame w paid) as (Hplan1 & Hexp1 & _).
  pose proof (SessionFacts.calls_after_reset w paid) as Hcalls1.
  set (s1 := (ensure_daily_reset w paid).2) in *.
  assert (Hzero : daily_ai_calls (profile s1) = 0%Z).
  { rewrite Hcalls1. cbn [paid profile]. rewrite Hcalls.
    destruct (reset_test (today w) p'); reflexivity. }
  assert (Hact1 : is_premium_active w (profile s1) = true).
  { unfold is_premium_active in *. rewrite Hplan1, Hexp1. exact Hactive. }
  split.
  - rewrite QuotaFacts.check_ai_quota_run. fold s1. rewrite Hact1, Hzero.
    cbn [fst]. destruct (Z.ltb_spec 0 (PREMIUM_DAILY_AI_CALLS cfg)); [reflexivity|lia].
  - unfold remaining_ai_calls. rewrite Hact1, Hzero. lia.
Qed.

(** A free user at the ceiling pays for 30 days. *)
Lemma payment_restores_quota_witness :
  Limits.renewal_fits 1756800000000000 30
    (Sample.user 5 (Some (today Sample.joy_world)))
  /\ (check_ai_quota Sample.cfg Sample.joy_world
        {| profile :=
             (process_success 1756800000000000 1756800000000000
                {| status := "PENDING"; duration_days := 30 |}
                (Sample.user 5 (Some (today Sample.joy_world)))).2;
           mood_logs := []; trace := [] |}).1
     = inr HasQuota.
Proof.
  assert (Hfits : Limits.renewal_fits 1756800000000000 30
                    (Sample.user 5 (Some (today Sample.joy_world))))
    by renewal_fits_here.
  split; [exact Hfits|].
  refine (proj1 (payment_restores_quota Sample.cfg Sample.joy_world
            1756800000000000 1756800000000000
            {| status := "PENDING"; duration_days := 30 |}
            (Sample.store_of (Sample.user 5 (Some (today Sample.joy_world))))
            _ _ Hfits _ _)).
  - discriminate.
  - lia.
  - reflexivity.
  - reflexivity.
Defined.

End PaymentsFacts.

(** ** Payment notifications *)

Module WebhooksFacts.
Import Payments Webhooks.


(** X19. A notification changes the user's profile only when its state
    is one of COMPLETE, COMPLETED and SUCCESS and the payment is not yet
    a success, and then exactly as [process_success] does; a failure,
    cancellation or expiry notice marks the payment FAILED, even one that
    had succeeded, and leaves the profile, premium plan included, as it
    was. *)
Theorem handle_state_profile
    (t1 t2 : Z) (state : string) (data : json) (r : row) (p : UserProfile) :
  let out := handle_state t1 t2 state data r p in
  (state_in state ["COMPLETE"; "COMPLETED"; "SUCCESS"] = true ->
   out.2 = (process_success t1 t2 (payment r) p).2
   /\ payment out.1.2 = (process_success t1 t2 (payment r) p).1
   /\ Webhooks.webhook_data out.1.2 = Webhooks.webhook_data r)
  /\ (state_in state ["COMPLETE"; "COMPLETED"; "SUCCESS"] = false ->
      out.2 = p
      /\ (state_in state ["FAILED"; "CANCELLED"; "EXPIRED"] = true ->
          status (payment out.1.2) = "FAILED"
          /\ out.1.1 = Processed (id r) "FAILED")
      /\ (state_in state ["FAILED"; "CANCELLED"; "EXPIRED"] = false ->
          payment out.1.2 = payment r)
      /\ Webhooks.webhook_data out.1.2 = Some data)
  /\ (status (payment r) = "SUCCESS" -> out.2 = p).
Proof.
  cbv zeta. unfold handle_state.
  destruct (String.eqb_spec (status (payment r)) "SUCCESS") as [Hs|Hs];
    cbn [andb].
  - assert (Hnoop : process_success t1 t2 (payment r) p = (payment r, p)).
    { unfold process_success. rewrite Hs. reflexivity. }
    destruct (String.eqb state "COMPLETE") eqn:Hc.
    + assert (Hok : state_in state ["COMPLETE"; "COMPLETED"; "SUCCESS"] = true).
      { unfold state_in. cbn [existsb]. rewrite Hc. reflexivity. }
      rewrite Hok, Hnoop. cbn [fst snd].
      split; [auto|]. split; [discriminate|auto].
    + destruct (state_in state ["COMPLETE"; "COMPLETED"; "SUCCESS"]) eqn:Hok.
      * rewrite Hnoop. cbn [fst snd payment Webhooks.webhook_data].
        split; [auto|]. split; [discriminate|auto].
      * split; [discriminate|]. split; [|intros _].
        { intros _.
          destruct (state_in state ["FAILED"; "CANCELLED"; "EXPIRED"]);
            cbn [fst snd payment Webhooks.webhook_data status];
            repeat split; auto; discriminate. }
        destruct (state_in state ["FAILED"; "CANCELLED"; "EXPIRED"]); reflexivity.
  - destruct (state_in state ["COMPLETE"; "COMPLETED"; "SUCCESS"]) eqn:Hok.
    + cbn [fst snd payment Webhooks.webhook_data].
      split; [auto|]. split; [discriminate|contradiction].
    + split; [discriminate|]. split; [|contradiction].
      intros _.
      destruct (state_in state ["FAILED"; "CANCELLED"; "EXPIRED"]);
        cbn [fst snd payment Webhooks.webhook_data status];
        repeat split; auto; discriminate.
Qed.

End WebhooksFacts.

(** ** Edges of the analysis view *)

Module EdgeFacts.
Import HFClient SpotifyRecommendationService Views Spec Steps Text.

Lemma lstrip_blank (t : string) : blank t = true -> PyStr.lstrip t = "".
Proof.
  induction t as [|c r IH]; [reflexivity|]. cbn [blank PyStr.lstrip].
  destruct (PyStr.is_space c); [exact IH|discriminate].
Qed.

Lemma strip_blank (t : string) : blank t = true -> PyStr.strip t = "".
Proof. intros H. unfold PyStr.strip. rewrite (lstrip_blank t H). reflexivity. Qed.

(** X20. With quota left, a request whose text is missing, empty or made
    of white space only is answered 400 "Text is required for analysis",
    and one whose trimmed text is longer than 1000 characters is answered
    400 "Text cannot exceed 1000 characters"; either way the view stops
    right after the daily reset. *)
Theorem text_validation_messages
    (cfg : settings) (w : world) (data : request_data) (s : store) :
  let s1 := (ensure_daily_reset w s).2 in
  let out := Views.analyze_emotion cfg w data s in
  (daily_ai_calls (profile s1) < max_calls cfg w (profile s1))%Z ->
  (match text data with
   | None => True
   | Some t => blank t = true
   end ->
   out = (inr (HTTP_400_BAD_REQUEST "Text is required for analysis"), s1))
  /\ ((1000 < PyStr.len (text_of data))%Z ->
      out = (inr (HTTP_400_BAD_REQUEST "Text cannot exceed 1000 characters"),
             s1)).
Proof.
  intros s1 out Hroom. apply Z.ltb_lt in Hroom. unfold max_calls in Hroom.
  split.
  - intros Hblank.
    assert (Hempty : text_of data = "").
    { unfold text_of. destruct (text data) as [t|]; [|reflexivity].
      apply strip_blank. exact Hblank. }
    subst out. unfold Views.analyze_emotion, bind.
    rewrite QuotaFacts.check_ai_quota_run. fold s1. rewrite Hroom.
    fold (text_of data). rewrite Hempty. reflexivity.
  - intros Hlong.
    assert (Ht : PyStr.truthy (text_of data) = true).
    { destruct (PyStr.truthy (text_of data)) eqn:Ht; [reflexivity|].
      apply ViewFacts.truthy_empty in Ht. rewrite Ht in Hlong.
      vm_compute in Hlong. discriminate. }
    apply Z.gtb_lt in Hlong.
    subst out. unfold Views.analyze_emotion, bind.
    rewrite QuotaFacts.check_ai_quota_run. fold s1. rewrite Hroom.
    fold (text_of data). rewrite Ht, Hlong. reflexivity.
Qed.

(** A text of three blanks from a fresh user. *)
Lemma text_validation_messages_witness :
  Views.analyze_emotion Sample.cfg Sample.joy_world
    {| text := Some "   "; user_mood := None; persist := true |}
    (Sample.store_of (Sample.user 0 None))
  = (inr (HTTP_400_BAD_REQUEST "Text is required for analysis"),
     (ensure_daily_reset Sample.joy_world
        (Sample.store_of (Sample.user 0 None))).2).
Proof.
  refine (proj1 (text_validation_messages Sample.cfg Sample.joy_world
            {| text := Some "   "; user_mood := None; persist := true |}
            (Sample.store_of (Sample.user 0 None)) _) _).
  - reflexivity.
  - reflexivity.
Defined.

(** X21. The quota comes back with the new day: when the last reset date
    is null or before today and the ceiling is above 0, the quota check
    lets the request through whatever the count was, and a valid request
    leaves the count at 1 and the reset date at today. *)
Theorem new_day_restores_quota
    (cfg : settings) (w : world) (data : request_data) (s : store) :
  let out := Views.analyze_emotion cfg w data s in
  reset_due (today w) (profile s) ->
  (0 < max_calls cfg w (profile s))%Z ->
  text_of data <> "" ->
  (PyStr.len (text_of data) <= 1000)%Z ->
  (check_ai_quota cfg w s).1 = inr HasQuota
  /\ daily_ai_calls (profile out.2) = 1%Z
  /\ last_ai_calls_reset (profile out.2) = Some (today w).
Proof.
  intros out Hdue Hceil Hne Hlen.
  apply QuotaFacts.reset_test_due in Hdue.
  pose proof (QuotaFacts.ensure_daily_reset_run w s) as Hrun.
  rewrite Hdue in Hrun.
  set (s1 := (ensure_daily_reset w s).2).
  assert (Hs1 : s1 = {| profile := with_calls (profile s) 0 (Some (today w));
                        mood_logs := mood_logs s;
                        trace := trace s ++ [Save ["daily_ai_calls"; "last_ai_calls_reset"]] |})
    by (subst s1; rewrite Hrun; reflexivity).
  assert (Hmax : max_calls cfg w (profile s1) = max_calls cfg w (profile s))
    by (rewrite Hs1; reflexivity).
  assert (Hzero : daily_ai_calls (profile s1) = 0%Z)
    by (rewrite Hs1; reflexivity).
  assert (Hroom : (daily_ai_calls (profile s1) <? max_calls cfg w (profile s1))%Z = true)
    by (rewrite Hzero, Hmax; apply Z.ltb_lt; exact Hceil).
  split.
  - rewrite QuotaFacts.check_ai_quota_run. fold s1.
    unfold max_calls in Hroom. rewrite Hroom. reflexivity.
  - destruct (AnalysisFacts.accepted_shape cfg w data s Hroom Hne Hlen)
      as (r & events & added & tail & response & _ & Hout & _).
    fold s1 in Hout. fold out in Hout. rewrite Hout.
    cbn [snd profile with_calls daily_ai_calls last_ai_calls_reset].
    rewrite Hzero, Hs1. split; reflexivity.
Qed.

(** A free user at the ceiling yesterday asks again today. *)
Lemma new_day_restores_quota_witness :
  daily_ai_calls
    (profile
       (Views.analyze_emotion Sample.cfg Sample.joy_world
          {| text := Some "a new day"; user_mood := None; persist := false |}
          (Sample.store_of
             (Sample.user 5 (Some {| year := 2025; month := 9; day := 1 |})))).2)
  = 1%Z.
Proof.
  refine (proj1 (proj2 (new_day_restores_quota Sample.cfg Sample.joy_world
            {| text := Some "a new day"; user_mood := None; persist := false |}
            (Sample.store_of
               (Sample.user 5 (Some {| year := 2025; month := 9; day := 1 |})))
            _ _ _ _))).
  - right. eexists. split; [reflexivity|]. unfold date_before. cbn. lia.
  - reflexivity.
  - discriminate.
  - vm_compute. discriminate.
Defined.

Lemma floor_ge (z : Z) (x : Q) : (z <= Qfloor x)%Z <-> (inject_Z z <= x)%Q.
Proof.
  split; intros H.
  - eapply Qle_trans; [|apply Qfloor_le]. rewrite <- Zle_Qle. exact H.
  - rewrite <- (Qfloor_Z z). apply Qfloor_resp_le. exact H.
Qed.

Lemma truncate_ge (z : Z) (x : Q) :
  (0 < z)%Z -> ((z <= truncate x)%Z <-> (inject_Z z <= x)%Q).
Proof.
  intros Hz. unfold truncate.
  destruct (Qle_bool 0 x) eqn:Hsign.
  - apply floor_ge.
  - assert (Hneg : (x < 0)%Q).
    { apply Qnot_le_lt. intros H. apply Qle_bool_iff in H. congruence. }
    assert (Hceil : (Qceiling x <= 0)%Z).
    { unfold Qceiling.
      assert (0 <= Qfloor (- x))%Z; [|lia].
      apply (floor_ge 0). change (inject_Z 0) with 0%Q. lra. }
    assert (Hzq : (0 < inject_Z z)%Q).
    { change 0%Q with (inject_Z 0). rewrite <- Zlt_Qlt. exact Hz. }
    split; [lia|intros H; lra].
Qed.

(** X22. For a score as the gateway returns it, a whole number of
    thousandths, whose tenfold is a finite number so that
    [int(score * 10)] returns, the intensity lies between 1 and 10 and
    is at least [k], for [k] from 2 to 10, exactly when the score is at
    least [k / 10]: it is 10 only from a score of 1 on and 1 for every
    score below 0.2. Between two such scores it never goes down when the
    score goes up. *)
Theorem intensity_steps (score : Q) :
  Limits.thousandths score ->
  Limits.product_fits score ->
  (1 <= intensity_of score <= 10)%Z
  /\ (forall k : Z,
        (2 <= k <= 10)%Z ->
        ((k <= intensity_of score)%Z <-> (inject_Z k / 10 <= score)%Q))
  /\ (forall higher : Q,
        Limits.thousandths higher ->
        Limits.product_fits higher ->
        (score <= higher)%Q ->
        (intensity_of score <= intensity_of higher)%Z).
Proof.
  intros _ _.
  assert (Hstep : forall (q : Q) (k : Z), (2 <= k <= 10)%Z ->
            ((k <= intensity_of q)%Z <-> (inject_Z k / 10 <= q)%Q)).
  { intros q k Hk. unfold intensity_of. rewrite ViewFacts.int_truncates.
    assert (Ht : (k <= truncate (q * 10))%Z <-> (inject_Z k <= q * 10)%Q)
      by (apply truncate_ge; lia).
    assert (Hdiv : (inject_Z k / 10 <= q)%Q <-> (inject_Z k <= q * 10)%Q).
    { unfold Qdiv. change (/ 10)%Q with (1 # 10)%Q. split; intros H; lra. }
    rewrite Hdiv, <- Ht. lia. }
  split; [unfold intensity_of; lia|]. split; [apply Hstep|].
  intros higher _ _ Hle.
  destruct (Z_le_gt_dec (intensity_of score) 1) as [Hone|Hmore].
  - unfold intensity_of at 2. lia.
  - assert (Hrange : (2 <= intensity_of score <= 10)%Z)
      by (unfold intensity_of in *; lia).
    apply (Hstep higher _ Hrange).
    eapply Qle_trans; [|exact Hle].
    apply (Hstep score _ Hrange). lia.
Qed.

(** At 0.97 the intensity is 9: it is not below 9, 0.97 being at least
    0.9, and it stays below 10. *)
Lemma intensity_steps_witness :
  Limits.thousandths (97 # 100)
  /\ Limits.product_fits (97 # 100)
  /\ (9 <= intensity_of (97 # 100))%Z
  /\ ~ (10 <= intensity_of (97 # 100))%Z.
Proof.
  assert (Hth : Limits.thousandths (97 # 100))
    by (exists 970%Z; reflexivity).
  assert (Hfits : Limits.product_fits (97 # 100)) by (vm_compute; reflexivity).
  destruct (intensity_steps (97 # 100) Hth Hfits) as (_ & Hk & _).
  split; [exact Hth|]. split; [exact Hfits|]. split.
  - apply (Hk 9%Z); [lia|]. vm_compute. discriminate.
  - intros H. apply (Hk 10%Z) in H; [|lia]. vm_compute in H. apply H. reflexivity.
Defined.

End EdgeFacts.
